(** * StudyMind-AI front end: a shallow embedding and its checked properties

    The repository is a React single-page application.  This development
    embeds the event handlers of its components (Upload, Chat, Quiz, Sidebar,
    App) and the request builders of [services/api.js], together with the
    small part of the React and DOM behaviour the handlers rely on:

    - a JavaScript string is its sequence of UTF-16 code units;
    - an [async] handler is a program tree that performs state-setter calls
      and other observable actions, reads the clock, asks [window.confirm]
      and awaits one HTTP round trip;
    - a component that is unmounted loses its [useState] cells, and setter
      calls made later by one of its pending continuations are dropped;
    - a component that [AnimatePresence] keeps on screen while it animates
      out is still mounted, with the props of its last render. *)

From Stdlib Require Import List NArith ZArith Bool String Ascii Lia.
From Stdlib Require DecimalPos DecimalN.
Import ListNotations.

Set Implicit Arguments.

(* ================================================================== *)
(** ** JavaScript strings *)

(** A string value is the list of its UTF-16 code units. *)
Definition jsstring := list N.

(** String literals of the source, written as Rocq strings. *)
Definition js (s : string) : jsstring :=
  map N_of_ascii (list_ascii_of_string s).

Definition str_eqb (a b : jsstring) : bool :=
  if list_eq_dec N.eq_dec a b then true else false.

(** ToBoolean on a string: only the empty string is falsy. *)
Definition truthy (s : jsstring) : bool :=
  match s with [] => false | _ :: _ => true end.

(** WhiteSpace and LineTerminator code points of ECMAScript, the characters
    [String.prototype.trim] removes. *)
Definition isWhiteSpace (c : N) : bool :=
  ((9 <=? c) && (c <=? 13) || (c =? 32) || (c =? 160) || (c =? 5760)
   || (8192 <=? c) && (c <=? 8202)
   || (c =? 8232) || (c =? 8233) || (c =? 8239) || (c =? 8287)
   || (c =? 12288) || (c =? 65279))%N.

Fixpoint trimStart (s : jsstring) : jsstring :=
  match s with
  | [] => []
  | c :: r => if isWhiteSpace c then trimStart r else s
  end.

Definition trimEnd (s : jsstring) : jsstring := rev (trimStart (rev s)).

Definition trim (s : jsstring) : jsstring := trimEnd (trimStart s).

(** The spec's words: an input that is empty or consists of white space only. *)
Definition blank (s : jsstring) : bool := forallb isWhiteSpace s.

(** Decimal digits of a natural number, as [Number.prototype.toString] prints
    an integer below 10^21. *)
Fixpoint digits (d : Decimal.uint) : jsstring :=
  (match d with
   | Decimal.Nil => []
   | Decimal.D0 r => 48 :: digits r
   | Decimal.D1 r => 49 :: digits r
   | Decimal.D2 r => 50 :: digits r
   | Decimal.D3 r => 51 :: digits r
   | Decimal.D4 r => 52 :: digits r
   | Decimal.D5 r => 53 :: digits r
   | Decimal.D6 r => 54 :: digits r
   | Decimal.D7 r => 55 :: digits r
   | Decimal.D8 r => 56 :: digits r
   | Decimal.D9 r => 57 :: digits r
   end)%N.

Definition dec (n : N) : jsstring := digits (N.to_uint n).

(* ================================================================== *)
(** ** Numbers *)

(** The Number values [parseInt] yields: NaN, an integer that a double
    holds, or an infinity.  The sign of zero is not modelled. *)
Inductive jsnum : Type :=
| NaN
| Num (z : Z)
| Infinity (negative : bool).

(** The double nearest to a natural number, the one with the even
    significand of two equally near: every number below 2^53 is a double;
    a larger one keeps its 53 leading bits, rounded.  [None] stands for a
    result past the largest double. *)
Definition round_double (m : N) : option N :=
  (if m <? 2 ^ 53 then Some m
   else
     let e := N.log2 m - 52 in
     let q := m / 2 ^ e in
     let r := m mod 2 ^ e in
     let h := 2 ^ (e - 1) in
     let q' := if (h <? r) || ((r =? h) && N.odd q) then q + 1 else q in
     if q' * 2 ^ e <? 2 ^ 1024 then Some (q' * 2 ^ e) else None)%N.

(** The Number value of a signed mathematical integer. *)
Definition to_number (negative : bool) (m : N) : jsnum :=
  match round_double m with
  | Some v => Num (if negative then - Z.of_N v else Z.of_N v)
  | None => Infinity negative
  end.

Definition digit_value (radix : N) (c : N) : option N :=
  (let v :=
     if (48 <=? c) && (c <=? 57) then Some (c - 48)
     else if (97 <=? c) && (c <=? 122) then Some (c - 97 + 10)
     else if (65 <=? c) && (c <=? 90) then Some (c - 65 + 10)
     else None in
   match v with
   | Some d => if d <? radix then Some d else None
   | None => None
   end)%N.

(** The longest prefix of radix digits, read left to right; [None] when
    there is no digit at all. *)
Fixpoint parse_digits (radix : N) (acc : option N) (s : jsstring) : option N :=
  match s with
  | [] => acc
  | c :: r =>
      match digit_value radix c with
      | Some d =>
          parse_digits radix
            (Some (match acc with Some a => a * radix + d | None => d end)%N) r
      | None => acc
      end
  end.

(** [parseInt(string)] with no radix argument (ECMAScript 19.2.5): leading
    white space is skipped, a sign is read, a [0x]/[0X] prefix selects
    radix 16, and the longest digit prefix is the value, rounded to a
    double.  (Past 20 significant digits the standard lets an engine
    replace digits by zeros before rounding; the value is rounded exactly
    here.) *)
Definition parseInt (input : jsstring) : jsnum :=
  let s := trimStart input in
  let '(neg, s) :=
    match s with
    | 45%N :: r => (true, r)
    | 43%N :: r => (false, r)
    | _ => (false, s)
    end in
  let '(radix, s) :=
    match s with
    | 48%N :: 120%N :: r => (16%N, r)
    | 48%N :: 88%N :: r => (16%N, r)
    | _ => (10%N, s)
    end in
  match parse_digits radix None s with
  | None => NaN
  | Some m => to_number neg m
  end.

Arguments to_number : simpl never.

(* ================================================================== *)
(** ** Upload.jsx: formatFileSize *)

Definition sizes : list jsstring := [js "Bytes"; js "KB"; js "MB"; js "GB"].

(** [sizes[i]] inside a string concatenation: an index past the end reads
    [undefined], which prints as the word. *)
Definition sizes_at (i : N) : jsstring :=
  nth (N.to_nat i) sizes (js "undefined").

(** [x.toFixed(2)] for [x = bytes / k^i], kept as the integer number of
    hundredths: the nearest one, the larger of two equally near.  The
    quotient is exact in a double because [k^i] is a power of two. *)
Definition toFixed2 (bytes : N) (d : N) : N := ((200 * bytes + d) / (2 * d))%N.

(** [parseFloat(s) + ''] for [s] the two-decimal rendering of [h] hundredths:
    the number is printed with the shortest digits, so trailing zeros of the
    fraction, and a fraction that is zero, disappear. *)
Definition print_hundredths (h : N) : jsstring :=
  (let ip := h / 100 in
   let fp := h mod 100 in
   if fp =? 0 then dec ip
   else if fp mod 10 =? 0 then dec ip ++ js "." ++ dec (fp / 10)
   else dec ip ++ js "." ++ dec (fp / 10) ++ dec (fp mod 10))%list%N.

(** [formatFileSize(bytes)] for a file size, a natural number.  The unit
    index [Math.floor(Math.log(bytes) / Math.log(k))] is taken as the
    largest [i] with [1024^i <= bytes], that is [log2 bytes / 10].  The
    code divides two rounded logarithms; for every size the dropzone
    accepts (up to 200 MB) the quotient has that floor, a size under a
    power of 1024 being under it by far more than the rounding.  Much
    larger sizes are outside what this definition follows: just under
    1024^5 the rounded quotient is 5 already, and past 2^53 a size is not
    an exact double. *)
Definition formatFileSize (bytes : N) : jsstring :=
  if (bytes =? 0)%N then js "0 Bytes"
  else
    let k := 1024%N in
    let i := (N.log2 bytes / 10)%N in
    print_hundredths (toFixed2 bytes (k ^ i)) ++ js " " ++ sizes_at i.

(* ================================================================== *)
(** ** Data model *)

(** A browser [File], as far as the code reads it.  The dropzone hands
    over the files it accepted (PDF, at most [maxSize] bytes); the type of
    a file is not modelled. *)
Module File.
Record t := { name : jsstring; size : N }.
End File.

(** Document descriptor built by the upload panel. *)
Module Doc.
Record t := { name : jsstring; size : jsstring; status : jsstring }.
End Doc.

Module Source.
Record t := { source : jsstring; page : N; chapter : option jsstring }.
End Source.

Inductive role : Type := user | assistant.

(** A chat message.  An absent property is [None]; the timestamp is the
    clock reading whose [toISOString()] rendering the code stores. *)
Module Message.
Record t := {
  role_ : role;
  content : jsstring;
  sources : option (list Source.t);
  model : option jsstring;
  timestamp : N }.
End Message.

(** Response bodies of the backend, with the fields the client reads. *)
Module UploadResult.
Record t := { chapters : list jsstring }.
End UploadResult.

Module QueryResult.
Record t := {
  answer : jsstring;
  sources : list Source.t;
  model_used : jsstring }.
End QueryResult.

Module QuizResult.
Record t := { questions : jsstring; model : jsstring }.
End QuizResult.

Module ModelDesc.
Record t := { name : jsstring; description : jsstring }.
End ModelDesc.

(** Request bodies; a property holding [null] is [None]. *)
Module QueryBody.
Record t := {
  query : jsstring;
  chapter_filter : option jsstring;
  model_name : option jsstring }.
End QueryBody.

Module QuizBody.
Record t := { chapter : jsstring; num_questions : option jsnum }.
End QuizBody.

(** The calls made through the axios instance, indexed by the type of
    [response.data]. *)
Inductive request : Type -> Type :=
| PostUpload (form : list (jsstring * File.t)) : request UploadResult.t
| PostQuery (body : QueryBody.t) : request QueryResult.t
| PostGenerateQuiz (body : QuizBody.t) : request QuizResult.t
| GetChapters : request (list jsstring)
| GetModels : request (list (jsstring * ModelDesc.t))
| DeleteClear : request unit
| GetHealth : request unit.

(** A JavaScript value, as far as a truth test and the console look at
    it; an object is kept as its JSON text. *)
Inductive jsvalue : Type :=
| JUndefined
| JNull
| JBoolean (b : bool)
| JNumber (n : jsnum)
| JString (s : jsstring)
| JObject (json : jsstring).

(** ToBoolean. *)
Definition to_boolean (v : jsvalue) : bool :=
  match v with
  | JUndefined | JNull => false
  | JBoolean b => b
  | JNumber NaN => false
  | JNumber (Num z) => negb (z =? 0)%Z
  | JNumber (Infinity _) => true
  | JString s => truthy s
  | JObject _ => true
  end.

(** The error a failed call is rejected with, as far as the code reads it:
    [error.message] and [error.response?.data], the body of the response,
    which is [undefined] when no response came. *)
Module AxiosError.
Record t := { message : jsstring; response_data : jsvalue }.
End AxiosError.

(** What [console.error] is given after its label: an error object, or a
    plain value. *)
Inductive logged : Type :=
| the_error (e : AxiosError.t)
| the_value (v : jsvalue).

(** How an awaited call settles: with the response data, or with an
    error. *)
Inductive outcome (R : Type) : Type :=
| Resolved (data : R)
| Rejected (error : AxiosError.t).
Arguments Rejected {R} error.

(** What the backend answers to each call. *)
Definition backend := forall R, request R -> outcome R.

(** An argument of a function with default parameters. *)
Inductive arg (A : Type) : Type :=
| Undefined
| Null
| Val (a : A).
Arguments Undefined {A}.
Arguments Null {A}.

(** [param = dflt]: the default replaces [undefined] only. *)
Definition defaulted {A} (dflt : option A) (a : arg A) : option A :=
  match a with
  | Undefined => dflt
  | Null => None
  | Val v => Some v
  end.

Inductive tab : Type := upload | chat | quiz.

Inductive toast_kind : Type := loading | success | error.

(** The observable calls a handler makes: React state setters (the
    [_append] forms are the functional updates [prev => [...prev, ...]]),
    toasts, console output, and DOM effects. *)
Inductive action : Type :=
| setActiveTab (t : tab)
| setDocuments_append (newDocs : list Doc.t)
| setDocuments (docs : list Doc.t)
| setChapters (cs : list jsstring)
| setSelectedModel (m : jsstring)
| setIsSidebarOpen (b : bool)
| setIsLoading (b : bool)
| setMessages_append (m : Message.t)
| setInput (s : jsstring)
| Chat_setSelectedChapter (s : jsstring)
| Quiz_setSelectedChapter (s : jsstring)
| setNumQuestions (n : jsnum)
| setQuiz (q : option QuizResult.t)
| setModels (ms : list (jsstring * ModelDesc.t))
| Sidebar_setIsLoading (b : bool)
| toast (k : toast_kind) (msg : jsstring)
| console_error (label : jsstring) (detail : logged)
| preventDefault
| download (filename : jsstring) (content : jsstring).

(** A handler body: a finite tree of actions, clock readings
    ([new Date()], [Date.now()]), [window.confirm] dialogs and awaited
    calls. *)
Inductive prog : Type :=
| Ret
| Do (a : action) (k : prog)
| Now (k : N -> prog)
| Confirm (msg : jsstring) (k : bool -> prog)
| Await {R : Type} (r : request R) (k : outcome R -> prog).

Notation "a ;; k" := (Do a k) (at level 61, right associativity).

(** Calling a synchronous callback and going on. *)
Fixpoint seq (p q : prog) : prog :=
  match p with
  | Ret => q
  | Do a k => Do a (seq k q)
  | Now k => Now (fun t => seq (k t) q)
  | Confirm m k => Confirm m (fun b => seq (k b) q)
  | Await r k => Await r (fun o => seq (k o) q)
  end.

(* ================================================================== *)
(** ** services/api.js *)

Module Api.

(** [error.response?.data || error.message], what the interceptor
    logs. *)
Definition error_detail (e : AxiosError.t) : jsvalue :=
  if to_boolean (AxiosError.response_data e)
  then AxiosError.response_data e
  else JString (AxiosError.message e).

(** Every call goes through the axios instance, whose response
    interceptor logs a failure and rejects again with the same error. *)
Definition await {R} (r : request R) (k : outcome R -> prog) : prog :=
  Await r (fun o =>
    match o with
    | Resolved _ => k o
    | Rejected e =>
        console_error (js "API Error:") (the_value (error_detail e)) ;; k o
    end).

Definition uploadPDFs (files : list File.t) : request UploadResult.t :=
  PostUpload (map (fun file => (js "files", file)) files).

Definition queryDocuments (query : jsstring)
    (chapterFilter modelName : arg jsstring) : request QueryResult.t :=
  PostQuery
    {| QueryBody.query := query;
       QueryBody.chapter_filter := defaulted None chapterFilter;
       QueryBody.model_name :=
         defaulted (Some (js "gemini-1.5-flash")) modelName |}.

Definition generateQuiz (chapter : jsstring) (numQuestions : arg jsnum)
  : request QuizResult.t :=
  PostGenerateQuiz
    {| QuizBody.chapter := chapter;
       QuizBody.num_questions := defaulted (Some (Num 5)) numQuestions |}.

Definition getChapters : request (list jsstring) := GetChapters.
Definition getModels : request (list (jsstring * ModelDesc.t)) := GetModels.
Definition clearAllData : request unit := DeleteClear.
Definition healthCheck : request unit := GetHealth.

End Api.

(* ================================================================== *)
(** ** Upload.jsx *)

Module Upload.

Definition maxSize : N := 200 * 1024 * 1024.

Definition newDoc (file : File.t) : Doc.t :=
  {| Doc.name := File.name file;
     Doc.size := formatFileSize (File.size file);
     Doc.status := js "processed" |}.

Definition onDrop (acceptedFiles : list File.t) : prog :=
  if (List.length acceptedFiles =? 0)%nat then Ret
  else
    setIsLoading true ;;
    toast loading (js "Uploading and processing PDFs...") ;;
    Api.await (Api.uploadPDFs acceptedFiles) (fun o =>
      match o with
      | Resolved result =>
          let newDocs := map newDoc acceptedFiles in
          setDocuments_append newDocs ;;
          setChapters (UploadResult.chapters result) ;;
          toast success
            (js "Successfully processed "
             ++ dec (N.of_nat (List.length acceptedFiles)) ++ js " PDFs") ;;
          setIsLoading false ;; Ret
      | Rejected err =>
          toast error (js "Failed to upload PDFs. Please try again.") ;;
          console_error (js "Upload error:") (the_error err) ;;
          setIsLoading false ;; Ret
      end).

End Upload.

(* ================================================================== *)
(** ** Chat component *)

(** The fields of a DOM keyboard event that tell the key and the held
    modifiers. *)
Record KeyboardEvent := {
  key : jsstring;
  shiftKey : bool;
  ctrlKey : bool;
  altKey : bool;
  metaKey : bool }.

Module Chat.

Record props := {
  chapters : list jsstring;
  selectedModel : jsstring;
  isLoading : bool }.

Record state := {
  messages : list Message.t;
  input : jsstring;
  selectedChapter : jsstring }.

Definition init : state :=
  {| messages := []; input := []; selectedChapter := js "All Chapters" |}.

(** The handler closes over the props and state of the render it was
    created in: [input], [selectedChapter] and [selectedModel] keep that
    render's values across the [await]. *)
Definition handleSend (p : props) (s : state) : prog :=
  if negb (truthy (trim (input s))) then Ret
  else
    Now (fun t =>
      let userMessage :=
        {| Message.role_ := user;
           Message.content := input s;
           Message.sources := None;
           Message.model := None;
           Message.timestamp := t |} in
      setMessages_append userMessage ;;
      setInput [] ;;
      setIsLoading true ;;
      Api.await
        (Api.queryDocuments (input s)
           (if str_eqb (selectedChapter s) (js "All Chapters")
            then Null else Val (selectedChapter s))
           (Val (selectedModel p)))
        (fun o =>
           match o with
           | Resolved response =>
               Now (fun t' =>
                 let aiMessage :=
                   {| Message.role_ := assistant;
                      Message.content := QueryResult.answer response;
                      Message.sources :=
                        Some (QueryResult.sources response);
                      Message.model :=
                        Some (QueryResult.model_used response);
                      Message.timestamp := t' |} in
                 setMessages_append aiMessage ;;
                 setIsLoading false ;; Ret)
           | Rejected err =>
               toast error (js "Failed to get response. Please try again.") ;;
               console_error (js "Query error:") (the_error err) ;;
               setIsLoading false ;; Ret
           end)).

Definition handleKeyPress (handleSend : prog) (e : KeyboardEvent) : prog :=
  if str_eqb (key e) (js "Enter") && negb (shiftKey e)
  then preventDefault ;; handleSend
  else Ret.

(** [disabled] of the send button. *)
Definition send_disabled (p : props) (s : state) : bool :=
  isLoading p || negb (truthy (trim (input s))).

(** The options of the chapter filter. *)
Definition chapter_options (p : props) : list jsstring :=
  js "All Chapters" :: chapters p.

End Chat.

(* ================================================================== *)
(** ** Quiz component *)

Module Quiz.

Record props := {
  chapters : list jsstring;
  selectedModel : jsstring;
  isLoading : bool }.

Record state := {
  selectedChapter : jsstring;
  numQuestions : jsnum;
  quiz_ : option QuizResult.t }.

Definition init : state :=
  {| selectedChapter := []; numQuestions := Num 5; quiz_ := None |}.

Definition handleGenerateQuiz (s : state) : prog :=
  if negb (truthy (selectedChapter s)) then
    toast error (js "Please select a chapter") ;; Ret
  else
    setIsLoading true ;;
    Api.await (Api.generateQuiz (selectedChapter s) (Val (numQuestions s)))
      (fun o =>
         match o with
         | Resolved response =>
             setQuiz (Some response) ;;
             toast success (js "Quiz generated successfully!") ;;
             setIsLoading false ;; Ret
         | Rejected err =>
             toast error (js "Failed to generate quiz. Please try again.") ;;
             console_error (js "Quiz generation error:") (the_error err) ;;
             setIsLoading false ;; Ret
         end).

Definition handleDownloadQuiz (s : state) : prog :=
  match quiz_ s with
  | None => Ret
  | Some q =>
      Now (fun t =>
        download
          (js "quiz-" ++ selectedChapter s ++ js "-" ++ dec t ++ js ".txt")
          (QuizResult.questions q) ;; Ret)
  end.

(** [onChange] of the chapter select and of the number input. *)
Definition onChapterChange (value : jsstring) : prog :=
  Quiz_setSelectedChapter value ;; Ret.

Definition onNumQuestionsChange (value : jsstring) : prog :=
  setNumQuestions (parseInt value) ;; Ret.

Definition onNewQuiz : prog := setQuiz None ;; Ret.

Definition generate_disabled (p : props) (s : state) : bool :=
  isLoading p || negb (truthy (selectedChapter s)).

Definition chapter_options (p : props) : list jsstring :=
  [] :: chapters p.

End Quiz.

(* ================================================================== *)
(** ** Sidebar component *)

Module Sidebar.

Record props := {
  documents : list Doc.t;
  chapters : list jsstring;
  selectedModel : jsstring }.

Record state := {
  models : list (jsstring * ModelDesc.t);
  isLoading : bool }.

Definition init : state := {| models := []; isLoading := false |}.

Definition loadModels : prog :=
  Api.await Api.getModels (fun o =>
    match o with
    | Resolved data => setModels data ;; Ret
    | Rejected err =>
        console_error (js "Failed to load models:") (the_error err) ;; Ret
    end).

(** [onClear] is the callback passed down by [App]. *)
Definition handleClearAll (onClear : prog) : prog :=
  Confirm (js "Are you sure? This will delete all uploaded documents.")
    (fun yes =>
       if yes then
         Sidebar_setIsLoading true ;;
         Api.await Api.clearAllData (fun o =>
           match o with
           | Resolved _ =>
               seq onClear
                 (toast success (js "All data cleared") ;;
                  Sidebar_setIsLoading false ;; Ret)
           | Rejected _ =>
               toast error (js "Failed to clear data") ;;
               Sidebar_setIsLoading false ;; Ret
           end)
       else Ret).

(** [disabled] of the Clear All Data button. *)
Definition clear_disabled (p : props) (s : state) : bool :=
  isLoading s || (List.length (documents p) =? 0)%nat.

End Sidebar.

(* ================================================================== *)
(** ** App.jsx *)

Module App.

Record state := {
  activeTab : tab;
  documents : list Doc.t;
  chapters : list jsstring;
  selectedModel : jsstring;
  isSidebarOpen : bool;
  isLoading : bool }.

Definition init : state :=
  {| activeTab := upload; documents := []; chapters := [];
     selectedModel := js "gemini-1.5-flash";
     isSidebarOpen := true; isLoading := false |}.

Definition checkBackend : prog :=
  Api.await Api.healthCheck (fun o =>
    match o with
    | Resolved _ => toast success (js "Connected to backend") ;; Ret
    | Rejected _ =>
        toast error
          (js "Cannot connect to backend. Please check if server is running.")
        ;; Ret
    end).

Definition toggleSidebar (s : state) : prog :=
  setIsSidebarOpen (negb (isSidebarOpen s)) ;; Ret.

Definition onClear : prog := setDocuments [] ;; setChapters [] ;; Ret.

(** The props each child is rendered with. *)
Definition chat_props (s : state) : Chat.props :=
  {| Chat.chapters := chapters s;
     Chat.selectedModel := selectedModel s;
     Chat.isLoading := isLoading s |}.

Definition quiz_props (s : state) : Quiz.props :=
  {| Quiz.chapters := chapters s;
     Quiz.selectedModel := selectedModel s;
     Quiz.isLoading := isLoading s |}.

Definition sidebar_props (s : state) : Sidebar.props :=
  {| Sidebar.documents := documents s;
     Sidebar.chapters := chapters s;
     Sidebar.selectedModel := selectedModel s |}.

End App.

(* ================================================================== *)
(** ** The component tree *)

(** A mounted component instance: its identity and its [useState] cells. *)
Record inst (S : Type) := { id : nat; local : S }.

(** [App] is always mounted (instance 0).  The content area shows the
    component of the active tab; the sidebar is mounted while it is open
    and until its exit animation ends.  While it animates out, [App]
    creates no sidebar element any more and [AnimatePresence] goes on
    rendering the last one it was given: [leaving] holds the props of that
    element, which the sidebar keeps whatever happens to the state of
    [App] in the meantime. *)
Record ui := {
  app : App.state;
  chat_view : option (inst Chat.state);
  quiz_view : option (inst Quiz.state);
  sidebar : option (inst Sidebar.state);
  fresh : nat;
  leaving : option Sidebar.props }.

(** The props the sidebar is rendered with. *)
Definition sidebar_shown (u : ui) : Sidebar.props :=
  match leaving u with
  | Some p => p
  | None => App.sidebar_props (app u)
  end.

Definition on_app (f : App.state -> App.state) (u : ui) : ui :=
  {| app := f (app u); chat_view := chat_view u; quiz_view := quiz_view u;
     sidebar := sidebar u; fresh := fresh u; leaving := leaving u |}.

(** A setter of a component's own state acts on the instance that created
    it, and does nothing once that instance is gone. *)
Definition on_local {S} (o : nat) (f : S -> S) (c : option (inst S))
  : option (inst S) :=
  match c with
  | Some i =>
      if (id i =? o)%nat then Some {| id := id i; local := f (local i) |}
      else c
  | None => None
  end.

Definition on_chat (o : nat) (f : Chat.state -> Chat.state) (u : ui) : ui :=
  {| app := app u; chat_view := on_local o f (chat_view u);
     quiz_view := quiz_view u; sidebar := sidebar u; fresh := fresh u;
     leaving := leaving u |}.

Definition on_quiz (o : nat) (f : Quiz.state -> Quiz.state) (u : ui) : ui :=
  {| app := app u; chat_view := chat_view u;
     quiz_view := on_local o f (quiz_view u);
     sidebar := sidebar u; fresh := fresh u; leaving := leaving u |}.

Definition on_sidebar (o : nat) (f : Sidebar.state -> Sidebar.state) (u : ui)
  : ui :=
  {| app := app u; chat_view := chat_view u; quiz_view := quiz_view u;
     sidebar := on_local o f (sidebar u); fresh := fresh u;
     leaving := leaving u |}.

(** The effect of one action made by instance [o]. *)
Definition apply_action (o : nat) (a : action) (u : ui) : ui :=
  match a with
  | setActiveTab t =>
      on_app (fun s =>
        {| App.activeTab := t; App.documents := App.documents s;
           App.chapters := App.chapters s;
           App.selectedModel := App.selectedModel s;
           App.isSidebarOpen := App.isSidebarOpen s;
           App.isLoading := App.isLoading s |}) u
  | setDocuments_append newDocs =>
      on_app (fun s =>
        {| App.activeTab := App.activeTab s;
           App.documents := App.documents s ++ newDocs;
           App.chapters := App.chapters s;
           App.selectedModel := App.selectedModel s;
           App.isSidebarOpen := App.isSidebarOpen s;
           App.isLoading := App.isLoading s |}) u
  | setDocuments docs =>
      on_app (fun s =>
        {| App.activeTab := App.activeTab s; App.documents := docs;
           App.chapters := App.chapters s;
           App.selectedModel := App.selectedModel s;
           App.isSidebarOpen := App.isSidebarOpen s;
           App.isLoading := App.isLoading s |}) u
  | setChapters cs =>
      on_app (fun s =>
        {| App.activeTab := App.activeTab s; App.documents := App.documents s;
           App.chapters := cs;
           App.selectedModel := App.selectedModel s;
           App.isSidebarOpen := App.isSidebarOpen s;
           App.isLoading := App.isLoading s |}) u
  | setSelectedModel m =>
      on_app (fun s =>
        {| App.activeTab := App.activeTab s; App.documents := App.documents s;
           App.chapters := App.chapters s; App.selectedModel := m;
           App.isSidebarOpen := App.isSidebarOpen s;
           App.isLoading := App.isLoading s |}) u
  | setIsSidebarOpen b =>
      on_app (fun s =>
        {| App.activeTab := App.activeTab s; App.documents := App.documents s;
           App.chapters := App.chapters s;
           App.selectedModel := App.selectedModel s;
           App.isSidebarOpen := b; App.isLoading := App.isLoading s |}) u
  | setIsLoading b =>
      on_app (fun s =>
        {| App.activeTab := App.activeTab s; App.documents := App.documents s;
           App.chapters := App.chapters s;
           App.selectedModel := App.selectedModel s;
           App.isSidebarOpen := App.isSidebarOpen s; App.isLoading := b |}) u
  | setMessages_append m =>
      on_chat o (fun s =>
        {| Chat.messages := Chat.messages s ++ [m];
           Chat.input := Chat.input s;
           Chat.selectedChapter := Chat.selectedChapter s |}) u
  | setInput v =>
      on_chat o (fun s =>
        {| Chat.messages := Chat.messages s; Chat.input := v;
           Chat.selectedChapter := Chat.selectedChapter s |}) u
  | Chat_setSelectedChapter v =>
      on_chat o (fun s =>
        {| Chat.messages := Chat.messages s; Chat.input := Chat.input s;
           Chat.selectedChapter := v |}) u
  | Quiz_setSelectedChapter v =>
      on_quiz o (fun s =>
        {| Quiz.selectedChapter := v;
           Quiz.numQuestions := Quiz.numQuestions s;
           Quiz.quiz_ := Quiz.quiz_ s |}) u
  | setNumQuestions n =>
      on_quiz o (fun s =>
        {| Quiz.selectedChapter := Quiz.selectedChapter s;
           Quiz.numQuestions := n; Quiz.quiz_ := Quiz.quiz_ s |}) u
  | setQuiz q =>
      on_quiz o (fun s =>
        {| Quiz.selectedChapter := Quiz.selectedChapter s;
           Quiz.numQuestions := Quiz.numQuestions s; Quiz.quiz_ := q |}) u
  | setModels ms =>
      on_sidebar o (fun s =>
        {| Sidebar.models := ms; Sidebar.isLoading := Sidebar.isLoading s |}) u
  | Sidebar_setIsLoading b =>
      on_sidebar o (fun s =>
        {| Sidebar.models := Sidebar.models s; Sidebar.isLoading := b |}) u
  | toast _ _ | console_error _ _ | preventDefault | download _ _ => u
  end.

(* ================================================================== *)
(** ** Running a handler *)

(** What a run of synchronous code ends in: the handler returned, or it
    is suspended at an [await] with the rest of its body. *)
Inductive result : Type :=
| Finished
| Awaiting {R : Type} (r : request R) (k : outcome R -> prog).

(** What the environment supplies to one synchronous run. *)
Record env := { now : N; confirm_answer : bool }.

(** Run the code of instance [o] up to the first [await]: the state
    reached, the actions made in order, and how the run ended. *)
Fixpoint run (o : nat) (e : env) (p : prog) (u : ui)
  : ui * list action * result :=
  match p with
  | Ret => (u, [], Finished)
  | Do a k =>
      let '(u', tr, r) := run o e k (apply_action o a u) in (u', a :: tr, r)
  | Now k => run o e (k (now e)) u
  | Confirm _ k => run o e (k (confirm_answer e)) u
  | Await r k => (u, [], Awaiting r k)
  end.

(** The rest of a suspended handler once the backend has answered. *)
Definition resume (b : backend) (r : result) : prog :=
  match r with
  | Finished => Ret
  | Awaiting r k => k (b _ r)
  end.

(** A handler run alone, with no other event in between: the synchronous
    part under [e1], then, if it awaits, the answer of [b] and the rest
    under [e2]. *)
Definition complete (o : nat) (e1 e2 : env) (b : backend) (p : prog) (u : ui)
  : ui * list action * result :=
  let '(u1, tr1, r1) := run o e1 p u in
  let '(u2, tr2, r2) := run o e2 (resume b r1) u1 in
  (u2, tr1 ++ tr2, r2).

(** The call a run is waiting for, if any. *)
Definition issued (r : result) : option {R : Type & request R} :=
  match r with
  | Finished => None
  | Awaiting r _ => Some (existT _ _ r)
  end.

(* ================================================================== *)
(** ** The application as a transition system *)

(** A call in flight: who made it, and the suspended rest of the handler. *)
Record pend := {
  owner : nat;
  resp : Type;
  req : request resp;
  cont : outcome resp -> prog }.

Record config := { tree : ui; pending : list pend }.

Definition awaiting (o : nat) (r : result) : list pend :=
  match r with
  | Finished => []
  | Awaiting r k => [{| owner := o; req := r; cont := k |}]
  end.

(** Run handler code of instance [o]; a call it awaits joins the calls in
    flight. *)
Definition launch (o : nat) (e : env) (p : prog) (c : config) : config :=
  let '(u, _, r) := run o e p (tree c) in
  {| tree := u; pending := pending c ++ awaiting o r |}.

Definition tab_eqb (a b : tab) : bool :=
  match a, b with
  | upload, upload | chat, chat | quiz, quiz => true
  | _, _ => false
  end.

(** Rendering after a state change ([renderContent] and the conditional
    sidebar of [App]): the content component of a tab that is no longer
    active is unmounted, the one of the active tab is mounted with fresh
    state if it was not there, and so is the sidebar when it is open; the
    sidebar's mount effect loads the models.  A sidebar that is mounted
    but no longer open is leaving: it keeps the props of its last element,
    those of the render before the click that closed it, which changed
    nothing else.

    Every component is taken to render.  A render that throws would take
    the whole tree down, after which no handler runs.  [Chat] renders an
    icon, [FaSend], that it imports from [react-icons/fa]; where that
    package has no such export, a run that shows the chat tab ends there.
    The runs of the page up to such a failure are runs of this system, so
    what holds in every reachable state below holds of them; and the
    properties of the chat below take a mounted chat as given. *)
Definition commit (e : env) (c : config) : config :=
  let u := tree c in
  let t := App.activeTab (app u) in
  let '(cv, n1) :=
    if tab_eqb t chat then
      match chat_view u with
      | Some i => (Some i, fresh u)
      | None => (Some {| id := fresh u; local := Chat.init |}, S (fresh u))
      end
    else (None, fresh u) in
  let '(qv, n2) :=
    if tab_eqb t quiz then
      match quiz_view u with
      | Some i => (Some i, n1)
      | None => (Some {| id := n1; local := Quiz.init |}, S n1)
      end
    else (None, n1) in
  match sidebar u, App.isSidebarOpen (app u) with
  | None, true =>
      launch n2 e Sidebar.loadModels
        {| tree := {| app := app u; chat_view := cv; quiz_view := qv;
                      sidebar := Some {| id := n2; local := Sidebar.init |};
                      fresh := S n2; leaving := None |};
           pending := pending c |}
  | Some i, false =>
      {| tree := {| app := app u; chat_view := cv; quiz_view := qv;
                    sidebar := Some i; fresh := n2;
                    leaving := Some (sidebar_shown u) |};
         pending := pending c |}
  | sb, _ =>
      {| tree := {| app := app u; chat_view := cv; quiz_view := qv;
                    sidebar := sb; fresh := n2; leaving := None |};
         pending := pending c |}
  end.

(** What can happen: the user acts on a control, the sidebar's exit
    animation ends, or a call in flight settles. *)
Inductive event : Type :=
| Drop (acceptedFiles : list File.t)
| ChatInput (value : jsstring)
| ChatChapter (value : jsstring)
| ChatKey (e : KeyboardEvent)
| ChatSend
| QuizChapter (value : jsstring)
| QuizNum (value : jsstring)
| QuizGenerate
| QuizDownload
| QuizNew
| ModelSelect (value : jsstring)
| ClearClick (confirmed : bool)
| MenuClick
| SidebarExited
| TabClick (t : tab)
| Settle (i : nat) (b : backend).

Fixpoint remove_nth {A} (i : nat) (l : list A) : list A :=
  match i, l with
  | _, [] => []
  | O, _ :: r => r
  | S j, x :: r => x :: remove_nth j r
  end.

(** The handler a user event reaches, the instance it belongs to and what
    the environment supplies to it.  A disabled control, a control of a
    component that is not mounted, and a value that is not among the
    options of a select, deliver nothing.  The controls of a sidebar that
    is leaving still work, with the props it was last rendered with. *)
Definition dispatch (t : N) (ev : event) (u : ui)
  : option (nat * env * prog) :=
  let a := app u in
  let e := {| now := t; confirm_answer := false |} in
  match ev with
  | Drop files =>
      if tab_eqb (App.activeTab a) upload
         && forallb (fun f => (File.size f <=? Upload.maxSize)%N) files
      then Some (0, e, Upload.onDrop files) else None
  | ChatInput v =>
      match chat_view u with
      | Some i => if App.isLoading a then None
                  else Some (id i, e, setInput v ;; Ret)
      | None => None
      end
  | ChatChapter v =>
      match chat_view u with
      | Some i =>
          if existsb (str_eqb v) (Chat.chapter_options (App.chat_props a))
          then Some (id i, e, Chat_setSelectedChapter v ;; Ret) else None
      | None => None
      end
  | ChatKey k =>
      match chat_view u with
      | Some i =>
          if App.isLoading a then None
          else Some (id i, e,
                     Chat.handleKeyPress
                       (Chat.handleSend (App.chat_props a) (local i)) k)
      | None => None
      end
  | ChatSend =>
      match chat_view u with
      | Some i =>
          if Chat.send_disabled (App.chat_props a) (local i) then None
          else Some (id i, e, Chat.handleSend (App.chat_props a) (local i))
      | None => None
      end
  | QuizChapter v =>
      match quiz_view u with
      | Some i =>
          if App.isLoading a then None
          else if existsb (str_eqb v) (Quiz.chapter_options (App.quiz_props a))
          then Some (id i, e, Quiz.onChapterChange v) else None
      | None => None
      end
  | QuizNum v =>
      match quiz_view u with
      | Some i => if App.isLoading a then None
                  else Some (id i, e, Quiz.onNumQuestionsChange v)
      | None => None
      end
  | QuizGenerate =>
      match quiz_view u with
      | Some i =>
          if Quiz.generate_disabled (App.quiz_props a) (local i) then None
          else Some (id i, e, Quiz.handleGenerateQuiz (local i))
      | None => None
      end
  | QuizDownload =>
      match quiz_view u with
      | Some i =>
          match Quiz.quiz_ (local i) with
          | Some _ => Some (id i, e, Quiz.handleDownloadQuiz (local i))
          | None => None
          end
      | None => None
      end
  | QuizNew =>
      match quiz_view u with
      | Some i =>
          match Quiz.quiz_ (local i) with
          | Some _ => Some (id i, e, Quiz.onNewQuiz)
          | None => None
          end
      | None => None
      end
  | ModelSelect v =>
      match sidebar u with
      | Some i =>
          if existsb (str_eqb v) (map fst (Sidebar.models (local i)))
          then Some (0, e, setSelectedModel v ;; Ret) else None
      | None => None
      end
  | ClearClick confirmed =>
      match sidebar u with
      | Some i =>
          if Sidebar.clear_disabled (sidebar_shown u) (local i) then None
          else Some (id i, {| now := t; confirm_answer := confirmed |},
                     Sidebar.handleClearAll App.onClear)
      | None => None
      end
  | MenuClick => Some (0, e, App.toggleSidebar a)
  | TabClick t' => Some (0, e, setActiveTab t' ;; Ret)
  | SidebarExited | Settle _ _ => None
  end.

(** One event: a user event runs its handler; the end of the exit
    animation removes a closed sidebar; a settled call resumes the
    handler that awaited it. *)
Definition handle (t : N) (ev : event) (c : config) : config :=
  let u := tree c in
  match ev with
  | SidebarExited =>
      if App.isSidebarOpen (app u) then c
      else {| tree := {| app := app u; chat_view := chat_view u;
                         quiz_view := quiz_view u; sidebar := None;
                         fresh := fresh u; leaving := None |};
              pending := pending c |}
  | Settle i b =>
      match nth_error (pending c) i with
      | Some p =>
          launch (owner p) {| now := t; confirm_answer := false |}
            (cont p (b _ (req p)))
            {| tree := u; pending := remove_nth i (pending c) |}
      | None => c
      end
  | _ =>
      match dispatch t ev u with
      | Some (o, e, p) => launch o e p c
      | None => c
      end
  end.

Definition step (t : N) (ev : event) (c : config) : config :=
  commit {| now := t; confirm_answer := false |} (handle t ev c).

(** The page after its first render: the sidebar has asked for the models
    and [App] for the health of the backend. *)
Definition start : config :=
  launch 0 {| now := 0; confirm_answer := false |} App.checkBackend
    (commit {| now := 0; confirm_answer := false |}
       {| tree := {| app := App.init; chat_view := None; quiz_view := None;
                     sidebar := None; fresh := 1; leaving := None |};
          pending := [] |}).

Fixpoint steps (evs : list (N * event)) (c : config) : config :=
  match evs with
  | [] => c
  | (t, ev) :: r => steps r (step t ev c)
  end.

Inductive reachable : config -> Prop :=
| reach_start : reachable start
| reach_step c t ev : reachable c -> reachable (step t ev c).

Definition is_clear {R} (r : request R) : bool :=
  match r with DeleteClear => true | _ => false end.

(** The number of clear calls in flight. *)
Definition clears_in_flight (c : config) : nat :=
  List.length (filter (fun p => is_clear (req p)) (pending c)).

(* ================================================================== *)
(** ** The claims in the words of the spec, and sample data *)

(** No modifier key is held. *)
Definition no_modifier (e : KeyboardEvent) : bool :=
  negb (shiftKey e || ctrlKey e || altKey e || metaKey e).

(** A keypress triggers a submission: on any chat whose input is not
    blank, the handler ends up waiting for the answer to a query. *)
Definition triggers_send (e : KeyboardEvent) : Prop :=
  forall o en p s u,
    blank (Chat.input s) = false ->
    issued (snd (run o en (Chat.handleKeyPress (Chat.handleSend p s) e) u))
    <> None.

(** The chat state shown in a tree, if the chat is mounted. *)
Definition chat_state (u : ui) : option Chat.state :=
  option_map (@local _) (chat_view u).

(** The Clear All Data button can be clicked. *)
Definition clear_enabled (c : config) : bool :=
  match sidebar (tree c) with
  | Some i => negb (Sidebar.clear_disabled (sidebar_shown (tree c)) (local i))
  | None => false
  end.

(** A backend that answers every call. *)
Definition backend_up : backend := fun R r =>
  match r in request T return outcome T with
  | PostUpload _ =>
      Resolved {| UploadResult.chapters := [js "Chapter 1"; js "Chapter 2"] |}
  | PostQuery _ =>
      Resolved {| QueryResult.answer := js "42";
                  QueryResult.sources :=
                    [{| Source.source := js "notes.pdf"; Source.page := 3;
                        Source.chapter := Some (js "Chapter 1") |}];
                  QueryResult.model_used := js "gemini-1.5-flash" |}
  | PostGenerateQuiz _ =>
      Resolved {| QuizResult.questions := js "Q1"; QuizResult.model := js "m" |}
  | GetChapters => Resolved []
  | GetModels => Resolved []
  | DeleteClear => Resolved tt
  | GetHealth => Resolved tt
  end.

Definition notes_pdf : File.t :=
  {| File.name := js "notes.pdf"; File.size := 1048576 |}.

Definition at_time (t : N) : env := {| now := t; confirm_answer := false |}.

(** A tree with the chat panel mounted and a question typed in. *)
Definition chat_typed (text chapter : jsstring) : ui :=
  {| app := App.init;
     chat_view := Some {| id := 2;
                          local := {| Chat.messages := [];
                                      Chat.input := text;
                                      Chat.selectedChapter := chapter |} |};
     quiz_view := None; sidebar := None; fresh := 3; leaving := None |}.

Definition ctrl_enter : KeyboardEvent :=
  {| key := js "Enter"; shiftKey := false; ctrlKey := true;
     altKey := false; metaKey := false |}.

Definition plain_enter : KeyboardEvent :=
  {| key := js "Enter"; shiftKey := false; ctrlKey := false;
     altKey := false; metaKey := false |}.

(** Upload a file, choose it on the quiz tab, type 50 (or erase the field)
    in the number input and press Generate. *)
Definition quiz_typed (typed : jsstring) : list (N * event) :=
  [ (1, Drop [notes_pdf]); (2, Settle 2 backend_up); (3, TabClick quiz);
    (4, QuizChapter (js "Chapter 1")); (5, QuizNum typed);
    (6, QuizGenerate) ]%N.

(** Upload a file, confirm Clear All Data, and while that call is in
    flight close the sidebar, let it disappear, and open it again. *)
Definition reopened_sidebar : list (N * event) :=
  [ (1, Drop [notes_pdf]); (2, Settle 2 backend_up); (3, ClearClick true);
    (4, MenuClick); (5, SidebarExited); (6, MenuClick) ]%N.

(** Handler code with no [await] in it, and handler code that awaits at
    most once on every path. *)
Fixpoint no_await (p : prog) : Prop :=
  match p with
  | Ret => True
  | Do _ k => no_await k
  | Now k => forall t, no_await (k t)
  | Confirm _ k => forall b, no_await (k b)
  | Await _ _ => False
  end.

Fixpoint single_await (p : prog) : Prop :=
  match p with
  | Ret => True
  | Do _ k => single_await k
  | Now k => forall t, single_await (k t)
  | Confirm _ k => forall b, single_await (k b)
  | Await _ k => forall o, no_await (k o)
  end.

(** Handler code that never calls the clear endpoint first. *)
Fixpoint never_clear (p : prog) : Prop :=
  match p with
  | Ret => True
  | Do _ k => never_clear k
  | Now k => forall t, never_clear (k t)
  | Confirm _ k => forall b, never_clear (k b)
  | Await r _ => is_clear r = false
  end.

Definition clear_issued (r : result) : nat :=
  match r with
  | Finished => 0
  | Awaiting r _ => if is_clear r then 1 else 0
  end.

(* ================================================================== *)
(** ** The invariant of the transition system *)

(** The mounted sidebar instance and its loading flag. *)
Definition sb_flag (u : ui) : option (nat * bool) :=
  option_map (fun i => (id i, Sidebar.isLoading (local i))) (sidebar u).

(** The flag after instance [o] has called [setIsLoading(false)]. *)
Definition unload (o : nat) (f : option (nat * bool)) : option (nat * bool) :=
  match f with
  | Some (j, b) => if (j =? o)%nat then Some (j, false) else Some (j, b)
  | None => None
  end.

(** Handler code that never touches the sidebar's loading flag. *)
Fixpoint sb_quiet (p : prog) : Prop :=
  match p with
  | Ret => True
  | Do a k =>
      match a with Sidebar_setIsLoading _ => False | _ => True end
      /\ sb_quiet k
  | Now k => forall t, sb_quiet (k t)
  | Confirm _ k => forall b, sb_quiet (k b)
  | Await _ k => forall x, sb_quiet (k x)
  end.

(** The identities of the component instances now mounted. *)
Definition mounted_ids (u : ui) : list nat :=
  match chat_view u with Some i => [id i] | None => [] end
  ++ match quiz_view u with Some i => [id i] | None => [] end
  ++ match sidebar u with Some i => [id i] | None => [] end.

(** A clear call in flight that instance [j] made. *)
Definition clear_of (j : nat) (p : pend) : bool :=
  is_clear (req p) && (owner p =? j)%nat.

(** How many elements of a list pass a test. *)
Definition count {A} (f : A -> bool) (l : list A) : nat :=
  List.length (filter f l).

(** What every handler but [handleClearAll] is. *)
Definition plain (p : prog) : Prop :=
  single_await p /\ sb_quiet p /\ never_clear p.

(** The rest of a suspended handler makes no further call; the rest of
    [handleClearAll] lowers the flag of its own instance, the rest of any
    other handler leaves the flag alone. *)
Definition cont_ok (p : pend) : Prop :=
  (forall x, no_await (cont p x))
  /\ if is_clear (req p)
     then forall x e v,
         sb_flag (fst (fst (run (owner p) e (cont p x) v)))
         = unload (owner p) (sb_flag v)
     else forall x, sb_quiet (cont p x).

(** The invariant: suspended handlers are as above, identities in use are
    below the next fresh one, and the mounted sidebar's flag is up exactly
    when one clear call of that instance is in flight. *)
Record inv (c : config) : Prop := {
  inv_cont : Forall cont_ok (pending c);
  inv_owner : Forall (fun p => owner p < fresh (tree c)) (pending c);
  inv_ids : Forall (fun j => j < fresh (tree c)) (mounted_ids (tree c));
  inv_fresh : 0 < fresh (tree c);
  inv_flag : forall j b, sb_flag (tree c) = Some (j, b) ->
             count (clear_of j) (pending c) = if b then 1 else 0 }.

(** The instances mounted and the next fresh identity. *)
Definition shape (u : ui) : list nat * nat := (mounted_ids u, fresh u).

(** The calls in flight, oldest first. *)
Definition calls (c : config) : list {R : Type & request R} :=
  map (fun p => existT request (resp p) (req p)) (pending c).

(* ================================================================== *)
(** ** Handlers, calls in flight and what a step may change *)

Unset Implicit Arguments.

(** The handler bodies the controls and the mount effects run: every
    program [dispatch], [commit] and [start] launch is one of these. *)
Inductive handler : prog -> Prop :=
| h_onDrop files :
    forallb (fun f => (File.size f <=? Upload.maxSize)%N) files = true ->
    handler (Upload.onDrop files)
| h_setInput v : handler (setInput v ;; Ret)
| h_chatChapter v : handler (Chat_setSelectedChapter v ;; Ret)
| h_handleSend p s : handler (Chat.handleSend p s)
| h_handleKeyPress p s k :
    handler (Chat.handleKeyPress (Chat.handleSend p s) k)
| h_onChapterChange v : handler (Quiz.onChapterChange v)
| h_onNumQuestionsChange v : handler (Quiz.onNumQuestionsChange v)
| h_handleGenerateQuiz s : handler (Quiz.handleGenerateQuiz s)
| h_handleDownloadQuiz s : handler (Quiz.handleDownloadQuiz s)
| h_onNewQuiz : handler Quiz.onNewQuiz
| h_setSelectedModel v : handler (setSelectedModel v ;; Ret)
| h_loadModels : handler Sidebar.loadModels
| h_handleClearAll : handler (Sidebar.handleClearAll App.onClear)
| h_checkBackend : handler App.checkBackend
| h_toggleSidebar a : handler (App.toggleSidebar a)
| h_setActiveTab t : handler (setActiveTab t ;; Ret).

(** A call in flight was left by one of the handlers, suspended at its
    [await]. *)
Definition known (p : pend) : Prop :=
  exists e h u,
    handler h /\ awaiting (owner p) (snd (run (owner p) e h u)) = [p].

(** The calls the panels bracket with the shared loading flag. *)
Definition busy {R} (r : request R) : bool :=
  match r with
  | PostUpload _ | PostQuery _ | PostGenerateQuiz _ => true
  | _ => false
  end.

(** What the handlers guarantee about a call: an upload carries at least
    one file, each under the field name "files" and within the size limit
    of the dropzone; a query has a text that is not blank and a filter that
    is never the "All Chapters" sentinel; a quiz request names a chapter.
    Nothing is said of the question count of a quiz request: the number
    input is stored as typed, whatever it is. *)
Definition wf_call {R} (r : request R) : Prop :=
  match r with
  | PostUpload form =>
      form <> []
      /\ Forall (fun ff => fst ff = js "files"
                           /\ (File.size (snd ff) <= Upload.maxSize)%N) form
  | PostQuery body =>
      blank (QueryBody.query body) = false
      /\ QueryBody.chapter_filter body <> Some (js "All Chapters")
  | PostGenerateQuiz body => QuizBody.chapter body <> []
  | _ => True
  end.

(** The document and chapter lists are what they were. *)
Definition lists_same (a a' : App.state) : Prop :=
  App.documents a' = App.documents a /\ App.chapters a' = App.chapters a.

(** The document and chapter lists are what they were, or documents were
    appended at the end, or both lists are empty. *)
Definition lists_change (a a' : App.state) : Prop :=
  lists_same a a'
  \/ (exists newDocs, newDocs <> []
                      /\ App.documents a' = App.documents a ++ newDocs)
  \/ (App.documents a' = [] /\ App.chapters a' = []).

(** The chat that was mounted is still the same instance and its history
    is the former one with at most one message appended. *)
Definition chat_step (u u' : ui) : Prop :=
  forall i, chat_view u = Some i ->
    exists i' more,
      chat_view u' = Some i' /\ id i' = id i
      /\ List.length more <= 1
      /\ Chat.messages (local i') = Chat.messages (local i) ++ more.

(** The tree after the suspended handler [p] has run on the answer [x]. *)
Definition after (p : pend) (x : outcome (resp p)) (e : env) (v : ui) : ui :=
  fst (fst (run (owner p) e (cont p x) v)).

(** The quiz state shown in a tree, if the quiz panel is mounted. *)
Definition quiz_state (u : ui) : option Quiz.state :=
  option_map (@local _) (quiz_view u).

(** A backend that cannot be reached: no response comes, and every call
    is rejected with a network error. *)
Definition network_error : AxiosError.t :=
  {| AxiosError.message := js "Network Error";
     AxiosError.response_data := JUndefined |}.

(** A backend that refuses an upload with an error body. *)
Definition bad_request : AxiosError.t :=
  {| AxiosError.message := js "Request failed with status code 400";
     AxiosError.response_data :=
       JObject (js "{detail: 'No files uploaded'}") |}.

Definition backend_down : backend := fun R _ => Rejected network_error.

Definition backend_refusing : backend := fun R _ => Rejected bad_request.

(** The chat tab shown, with nothing typed yet. *)
Definition chat_shown : ui :=
  {| app := {| App.activeTab := chat; App.documents := [];
               App.chapters := [];
               App.selectedModel := js "gemini-1.5-flash";
               App.isSidebarOpen := true; App.isLoading := false |};
     chat_view := Some {| id := 2; local := Chat.init |};
     quiz_view := None;
     sidebar := Some {| id := 1; local := Sidebar.init |};
     fresh := 3; leaving := None |}.

(** The chat tab shown while two uploads, started on the upload tab, are
    in flight. *)
Definition two_uploads : config :=
  launch 0 (at_time 0) (Upload.onDrop [notes_pdf])
    (launch 0 (at_time 0) (Upload.onDrop [notes_pdf])
       {| tree := chat_shown; pending := [] |}).

(** Upload a file, confirm Clear All Data, close the sidebar, and let the
    clear call succeed while the sidebar is still animating out. *)
Definition closing_sidebar : list (N * event) :=
  [ (1, Drop [notes_pdf]); (2, Settle 2 backend_up); (3, ClearClick true);
    (4, MenuClick); (5, Settle 2 backend_up) ]%N.

(** One file uploaded, and then Clear All Data confirmed. *)
Definition uploaded : config :=
  steps [ (1, Drop [notes_pdf]); (2, Settle 2 backend_up) ]%N start.

Definition clearing : config := step 3 (ClearClick true) uploaded.

(** A tree with the quiz panel mounted and a chapter chosen. *)
Definition quiz_chosen : ui :=
  {| app := App.init; chat_view := None;
     quiz_view := Some {| id := 2;
                          local := {| Quiz.selectedChapter := js "Chapter 1";
                                      Quiz.numQuestions := Num 5;
                                      Quiz.quiz_ := None |} |};
     sidebar := None; fresh := 3; leaving := None |}.

(** The chat tab with a question typed in, and the quiz tab with a
    chapter chosen after an upload. *)
Definition chat_open : config :=
  steps [ (1, TabClick chat); (2, ChatInput (js "Why?")) ]%N start.

Definition quiz_open : config :=
  steps [ (1, Drop [notes_pdf]); (2, Settle 2 backend_up); (3, TabClick quiz);
          (4, QuizChapter (js "Chapter 1")) ]%N start.

(* ================================================================== *)
(** * Proofs *)

Unset Implicit Arguments.

Lemma str_eqb_eq (a b : jsstring) : str_eqb a b = true <-> a = b.
Proof.
  unfold str_eqb. destruct (list_eq_dec N.eq_dec a b); split; congruence.
Qed.

Lemma str_eqb_neq (a b : jsstring) : str_eqb a b = false <-> a <> b.
Proof.
  unfold str_eqb. destruct (list_eq_dec N.eq_dec a b); split; congruence.
Qed.

(* ================================================================== *)
(** ** Strings: trimming *)

Lemma trimStart_nil (s : jsstring) : trimStart s = [] <-> blank s = true.
Proof.
  induction s as [|c r IH]; simpl.
  - tauto.
  - destruct (isWhiteSpace c); simpl.
    + exact IH.
    + split; discriminate.
Qed.

Lemma blank_app (a b : jsstring) : blank (a ++ b) = blank a && blank b.
Proof. apply forallb_app. Qed.

Lemma blank_rev (s : jsstring) : blank (rev s) = blank s.
Proof.
  induction s as [|c r IH]; simpl; [reflexivity|].
  rewrite blank_app, IH. simpl. rewrite andb_true_r. apply andb_comm.
Qed.

Lemma blank_trimStart (s : jsstring) : blank (trimStart s) = blank s.
Proof.
  induction s as [|c r IH]; simpl; [reflexivity|].
  destruct (isWhiteSpace c) eqn:E; simpl.
  - exact IH.
  - now rewrite E.
Qed.

Lemma trim_nil (s : jsstring) : trim s = [] <-> blank s = true.
Proof.
  unfold trim, trimEnd.
  rewrite <- (blank_trimStart s), <- (blank_rev (trimStart s)),
    <- trimStart_nil.
  split; intros H.
  - apply (f_equal (@rev N)) in H. now rewrite rev_involutive in H.
  - now rewrite H.
Qed.

(** [!input.trim()] is the test for a blank input. *)
Lemma not_trim_blank (s : jsstring) : negb (truthy (trim s)) = blank s.
Proof.
  destruct (blank s) eqn:E.
  - apply trim_nil in E. now rewrite E.
  - destruct (trim s) eqn:T; [|reflexivity].
    apply trim_nil in T. congruence.
Qed.

(* ================================================================== *)
(** ** Running handlers: general facts *)

Lemma run_no_await o e p u : no_await p -> snd (run o e p u) = Finished.
Proof.
  revert u. induction p as [|a k IH|k IH|m k IH|R r k IH]; simpl; intros u H.
  - reflexivity.
  - specialize (IH (apply_action o a u) H).
    destruct (run o e k (apply_action o a u)) as [[u' tr] r]. exact IH.
  - apply IH, H.
  - apply IH, H.
  - contradiction.
Qed.

Lemma run_single_await o e p u :
  single_await p ->
  match snd (run o e p u) with
  | Finished => True
  | Awaiting _ k => forall x, no_await (k x)
  end.
Proof.
  revert u. induction p as [|a k IH|k IH|m k IH|R r k IH]; simpl; intros u H.
  - exact I.
  - specialize (IH (apply_action o a u) H).
    destruct (run o e k (apply_action o a u)) as [[u' tr] r]. exact IH.
  - apply IH, H.
  - apply IH, H.
  - exact H.
Qed.

Lemma run_never_clear o e p u :
  never_clear p -> clear_issued (snd (run o e p u)) = 0.
Proof.
  revert u. induction p as [|a k IH|k IH|m k IH|R r k IH]; simpl; intros u H.
  - reflexivity.
  - specialize (IH (apply_action o a u) H).
    destruct (run o e k (apply_action o a u)) as [[u' tr] r]. exact IH.
  - apply IH, H.
  - apply IH, H.
  - now rewrite H.
Qed.

(* ================================================================== *)
(** ** Upload *)

(** C1: for a non-empty list of accepted files whose upload call
    succeeds, the document list afterwards is the prior list followed by
    one descriptor (name, formatted size, status) per file in the order of
    the files, and the chapter list is the [chapters] field of the
    response. *)
Theorem upload_success_appends
    (acceptedFiles : list File.t) (u : ui) (o : nat) (e1 e2 : env)
    (b : backend) (result : UploadResult.t) :
  acceptedFiles <> [] ->
  b _ (Api.uploadPDFs acceptedFiles) = Resolved result ->
  let u' := fst (fst (complete o e1 e2 b (Upload.onDrop acceptedFiles) u)) in
  App.documents (app u')
  = App.documents (app u)
    ++ map (fun file => {| Doc.name := File.name file;
                           Doc.size := formatFileSize (File.size file);
                           Doc.status := js "processed" |}) acceptedFiles
  /\ List.length (App.documents (app u'))
     = List.length (App.documents (app u)) + List.length acceptedFiles
  /\ App.chapters (app u') = UploadResult.chapters result.
Proof.
  intros Hne Hb.
  unfold complete, Upload.onDrop.
  destruct acceptedFiles as [|f fs]; [congruence|].
  cbn -[formatFileSize dec js]. rewrite Hb. cbn -[formatFileSize dec js].
  repeat split.
  rewrite length_app. cbn -[formatFileSize]. now rewrite length_map.
Qed.

Lemma upload_success_appends_witness :
  let u := chat_typed [] [] in
  let u' := fst (fst (complete 0 (at_time 1) (at_time 2) backend_up
                        (Upload.onDrop [notes_pdf]) u)) in
  App.documents (app u')
  = App.documents (app u)
    ++ map (fun file => {| Doc.name := File.name file;
                           Doc.size := formatFileSize (File.size file);
                           Doc.status := js "processed" |}) [notes_pdf]
  /\ List.length (App.documents (app u'))
     = List.length (App.documents (app u)) + List.length [notes_pdf]
  /\ App.chapters (app u') = [js "Chapter 1"; js "Chapter 2"].
Proof.
  apply (@upload_success_appends [notes_pdf] (chat_typed [] []) 0
           (at_time 1) (at_time 2) backend_up
           {| UploadResult.chapters := [js "Chapter 1"; js "Chapter 2"] |}).
  - discriminate.
  - reflexivity.
Defined.

(** C3, as the spec has it, fails: the size of a file of 1,048,576 bytes
    is not printed with two decimals. *)
Lemma one_mebibyte_lacks_decimals :
  formatFileSize 1048576 <> js "1.00 MB".
Proof. vm_compute. discriminate. Qed.

(** C3, amended: [formatFileSize] applied to 1,048,576 returns "1 MB"
    ([parseFloat] drops the zeros [toFixed(2)] printed), so uploading the
    one file "notes.pdf" of 1,048,576 bytes into an empty list yields the
    single descriptor with name "notes.pdf", size "1 MB" and status
    "processed". *)
Theorem format_one_mebibyte :
  formatFileSize 1048576 = js "1 MB"
  /\ App.documents
       (app (fst (fst (complete 0 (at_time 1) (at_time 2) backend_up
                         (Upload.onDrop [notes_pdf]) (tree start)))))
     = [{| Doc.name := js "notes.pdf"; Doc.size := js "1 MB";
           Doc.status := js "processed" |}].
Proof. split; vm_compute; reflexivity. Qed.

(* ================================================================== *)
(** ** Chat *)

(** C7: a submission of an empty or white-space-only input, by the
    button's handler or by a keypress, issues no call and leaves the
    state, the message history included, as it was. *)
Theorem blank_input_is_ignored
    (p : Chat.props) (s : Chat.state) (u : ui) (o : nat) (e : env) :
  blank (Chat.input s) = true ->
  run o e (Chat.handleSend p s) u = (u, [], Finished)
  /\ forall k : KeyboardEvent,
       fst (fst (run o e (Chat.handleKeyPress (Chat.handleSend p s) k) u)) = u
       /\ snd (run o e (Chat.handleKeyPress (Chat.handleSend p s) k) u)
          = Finished.
Proof.
  intros Hb.
  assert (Hs : Chat.handleSend p s = Ret).
  { unfold Chat.handleSend. now rewrite not_trim_blank, Hb. }
  rewrite Hs. split; [reflexivity|].
  intros k. unfold Chat.handleKeyPress.
  destruct (str_eqb (key k) (js "Enter") && negb (shiftKey k)); now simpl.
Qed.

Lemma blank_input_is_ignored_witness :
  let s := {| Chat.messages := []; Chat.input := js "  ";
              Chat.selectedChapter := js "All Chapters" |} in
  let u := chat_typed (js "  ") (js "All Chapters") in
  run 2 (at_time 1) (Chat.handleSend (App.chat_props App.init) s) u
  = (u, [], Finished)
  /\ forall k : KeyboardEvent,
       fst (fst (run 2 (at_time 1)
                   (Chat.handleKeyPress
                      (Chat.handleSend (App.chat_props App.init) s) k) u)) = u
       /\ snd (run 2 (at_time 1)
                 (Chat.handleKeyPress
                    (Chat.handleSend (App.chat_props App.init) s) k) u)
          = Finished.
Proof.
  apply (@blank_input_is_ignored (App.chat_props App.init)
           {| Chat.messages := []; Chat.input := js "  ";
              Chat.selectedChapter := js "All Chapters" |}
           (chat_typed (js "  ") (js "All Chapters")) 2 (at_time 1)).
  reflexivity.
Defined.

(** The synchronous part of a submission with a non-blank input. *)
Lemma handleSend_sync
    (p : Chat.props) (s : Chat.state) (u : ui) (o : nat) (e : env) :
  blank (Chat.input s) = false ->
  exists k,
    run o e (Chat.handleSend p s) u
    = (apply_action o (setIsLoading true)
         (apply_action o (setInput [])
            (apply_action o
               (setMessages_append
                  {| Message.role_ := user; Message.content := Chat.input s;
                     Message.sources := None; Message.model := None;
                     Message.timestamp := now e |}) u)),
       [ setMessages_append
           {| Message.role_ := user; Message.content := Chat.input s;
              Message.sources := None; Message.model := None;
              Message.timestamp := now e |};
         setInput []; setIsLoading true ],
       Awaiting
         (Api.queryDocuments (Chat.input s)
            (if str_eqb (Chat.selectedChapter s) (js "All Chapters")
             then Null else Val (Chat.selectedChapter s))
            (Val (Chat.selectedModel p))) k)
    /\ (forall response e2 v,
          fst (fst (run o e2 (k (Resolved response)) v))
          = apply_action o (setIsLoading false)
              (apply_action o
                 (setMessages_append
                    {| Message.role_ := assistant;
                       Message.content := QueryResult.answer response;
                       Message.sources := Some (QueryResult.sources response);
                       Message.model := Some (QueryResult.model_used response);
                       Message.timestamp := now e2 |}) v))
    /\ (forall err e2 v,
          fst (fst (run o e2 (k (Rejected err)) v))
          = apply_action o (setIsLoading false) v).
Proof.
  intros Hb. unfold Chat.handleSend. rewrite not_trim_blank, Hb.
  eexists. split; [reflexivity|]. split; reflexivity.
Qed.

(** C4: the chapter filter of the call a submission makes is null when
    the selected chapter is "All Chapters", and is the selected chapter
    itself in every other case. *)
Theorem all_chapters_sends_null
    (p : Chat.props) (s : Chat.state) (u : ui) (o : nat) (e : env) :
  blank (Chat.input s) = false ->
  exists body k,
    snd (run o e (Chat.handleSend p s) u) = Awaiting (PostQuery body) k
    /\ QueryBody.query body = Chat.input s
    /\ (Chat.selectedChapter s = js "All Chapters" ->
        QueryBody.chapter_filter body = None)
    /\ (Chat.selectedChapter s <> js "All Chapters" ->
        QueryBody.chapter_filter body = Some (Chat.selectedChapter s)).
Proof.
  intros Hb. destruct (handleSend_sync p s u o e Hb) as [k [Hrun _]].
  rewrite Hrun. simpl snd. unfold Api.queryDocuments.
  eexists. exists k. split; [reflexivity|]. split; [reflexivity|].
  split; intros H.
  - apply str_eqb_eq in H. now rewrite H.
  - apply str_eqb_neq in H. now rewrite H.
Qed.

Lemma all_chapters_sends_null_witness :
  exists body k,
    snd (run 2 (at_time 1)
           (Chat.handleSend (App.chat_props App.init)
              {| Chat.messages := []; Chat.input := js "What is a monad?";
                 Chat.selectedChapter := js "Chapter 1" |})
           (chat_typed (js "What is a monad?") (js "Chapter 1")))
    = Awaiting (PostQuery body) k
    /\ QueryBody.query body = js "What is a monad?"
    /\ (js "Chapter 1" = js "All Chapters" ->
        QueryBody.chapter_filter body = None)
    /\ (js "Chapter 1" <> js "All Chapters" ->
        QueryBody.chapter_filter body = Some (js "Chapter 1")).
Proof.
  apply (@all_chapters_sends_null (App.chat_props App.init)
           {| Chat.messages := []; Chat.input := js "What is a monad?";
              Chat.selectedChapter := js "Chapter 1" |}
           (chat_typed (js "What is a monad?") (js "Chapter 1")) 2 (at_time 1)).
  reflexivity.
Defined.

Lemma chat_state_own (u : ui) (o : nat) (s : Chat.state) (a : action) :
  chat_view u = Some {| id := o; local := s |} ->
  exists s',
    chat_view (apply_action o a u) = Some {| id := o; local := s' |}
    /\ Chat.messages s'
       = match a with
         | setMessages_append m => Chat.messages s ++ [m]
         | _ => Chat.messages s
         end
    /\ Chat.input s'
       = match a with setInput v => v | _ => Chat.input s end.
Proof.
  intros Hu.
  destruct a; simpl; rewrite ?Hu; simpl; rewrite ?Nat.eqb_refl;
    eexists; (split; [reflexivity|]); simpl; repeat split.
Qed.

(** C2, as the spec has it, fails: the assistant message is appended to
    the history as it stands when the answer arrives, which need not be
    the history the submission left.  Here the chat tab is shown while two
    uploads are in flight; each upload that settles lowers the shared
    loading flag and so enables the input again.  The question "A" is
    submitted on an empty history, then the question "B", and then the
    query for "A" succeeds: the history is A, B and the answer to A, not A
    and its answer. *)
Lemma answer_lands_after_later_question :
  let c1 := steps [ (1, Settle 0 backend_up);
                    (2, ChatInput (js "A")) ]%N two_uploads in
  let c2 := step 3 ChatSend c1 in
  let c3 := steps [ (4, Settle 0 backend_up); (5, ChatInput (js "B"));
                    (6, ChatSend) ]%N c2 in
  let c4 := step 7 (Settle 0 backend_up) c3 in
  let asked := fun (text : jsstring) (t : N) =>
    {| Message.role_ := user; Message.content := text;
       Message.sources := None; Message.model := None;
       Message.timestamp := t |} in
  let answered :=
    {| Message.role_ := assistant; Message.content := js "42";
       Message.sources :=
         Some [{| Source.source := js "notes.pdf"; Source.page := 3;
                  Source.chapter := Some (js "Chapter 1") |}];
       Message.model := Some (js "gemini-1.5-flash");
       Message.timestamp := 7 |} in
  option_map Chat.messages (chat_state (tree c1)) = Some []
  /\ calls c3
     = [ existT request _
           (PostQuery {| QueryBody.query := js "A";
                         QueryBody.chapter_filter := None;
                         QueryBody.model_name :=
                           Some (js "gemini-1.5-flash") |});
         existT request _
           (PostQuery {| QueryBody.query := js "B";
                         QueryBody.chapter_filter := None;
                         QueryBody.model_name :=
                           Some (js "gemini-1.5-flash") |}) ]
  /\ option_map Chat.messages (chat_state (tree c4))
     = Some [asked (js "A") 3%N; asked (js "B") 6%N; answered]
  /\ option_map Chat.messages (chat_state (tree c4))
     <> Some ([] ++ [asked (js "A") 3%N; answered]).
Proof.
  cbv zeta. split; [|split; [|split]]; vm_compute;
    try reflexivity; discriminate.
Qed.

(** C2, amended: a submission whose input is not blank appends the user
    message, holding the input as typed, to the history at once.  When its
    query succeeds, the assistant message, holding the answer, the sources
    and the [model_used] field of the response, is appended at the end of
    the history as it stands when the answer arrives, if the chat instance
    that asked is still mounted; if it is not, the answer is dropped.
    Hence, when nothing else was appended in between and the chat stayed
    mounted, the history afterwards is the prior history followed by these
    two entries, in this order. *)
Theorem answer_appended_on_arrival
    (p : Chat.props) (s : Chat.state) (u : ui) (o : nat) (e1 : env) :
  chat_view u = Some {| id := o; local := s |} ->
  blank (Chat.input s) = false ->
  let um := {| Message.role_ := user;
               Message.content := Chat.input s;
               Message.sources := None;
               Message.model := None;
               Message.timestamp := now e1 |} in
  let am := fun (response : QueryResult.t) (e2 : env) =>
    {| Message.role_ := assistant;
       Message.content := QueryResult.answer response;
       Message.sources := Some (QueryResult.sources response);
       Message.model := Some (QueryResult.model_used response);
       Message.timestamp := now e2 |} in
  exists u1 k,
    run o e1 (Chat.handleSend p s) u
    = (u1, [setMessages_append um; setInput []; setIsLoading true],
       Awaiting
         (Api.queryDocuments (Chat.input s)
            (if str_eqb (Chat.selectedChapter s) (js "All Chapters")
             then Null else Val (Chat.selectedChapter s))
            (Val (Chat.selectedModel p))) k)
    /\ option_map Chat.messages (chat_state u1) = Some (Chat.messages s ++ [um])
    /\ (forall response e2 v s',
          chat_view v = Some {| id := o; local := s' |} ->
          option_map Chat.messages
            (chat_state (fst (fst (run o e2 (k (Resolved response)) v))))
          = Some (Chat.messages s' ++ [am response e2]))
    /\ (forall response e2 v,
          (forall i, chat_view v = Some i -> id i <> o) ->
          chat_view (fst (fst (run o e2 (k (Resolved response)) v)))
          = chat_view v)
    /\ (forall response e2,
          option_map Chat.messages
            (chat_state (fst (fst (run o e2 (k (Resolved response)) u1))))
          = Some (Chat.messages s ++ [um; am response e2])).
Proof.
  intros Hu Hb um am.
  destruct (handleSend_sync p s u o e1 Hb) as [k [Hrun [Hok _]]].
  destruct (chat_state_own u o s (setMessages_append um) Hu)
    as [s1 [H1 [M1 _]]].
  destruct (chat_state_own _ o _ (setInput []) H1) as [s2 [H2 [M2 _]]].
  destruct (chat_state_own _ o _ (setIsLoading true) H2) as [s3 [H3 [M3 _]]].
  assert (Hlate : forall response e2 v s',
            chat_view v = Some {| id := o; local := s' |} ->
            option_map Chat.messages
              (chat_state (fst (fst (run o e2 (k (Resolved response)) v))))
            = Some (Chat.messages s' ++ [am response e2])).
  { intros response e2 v s' Hv. rewrite Hok.
    destruct (chat_state_own v o s' (setMessages_append (am response e2)) Hv)
      as [s4 [H4 [M4 _]]].
    destruct (chat_state_own _ o _ (setIsLoading false) H4)
      as [s5 [H5 [M5 _]]].
    unfold chat_state. fold (am response e2). rewrite H5. simpl.
    now rewrite M5, M4. }
  eexists. exists k. split; [exact Hrun|].
  split; [|split; [exact Hlate|split]].
  - unfold chat_state. fold um. rewrite H3. simpl. now rewrite M3, M2, M1.
  - intros response e2 v Hv. rewrite Hok. cbn.
    destruct (chat_view v) as [i|] eqn:Ev; cbn; [|reflexivity].
    destruct (Nat.eqb_spec (id i) o) as [E|E]; [now elim (Hv i eq_refl)|].
    reflexivity.
  - intros response e2. fold um. rewrite (Hlate response e2 _ s3 H3).
    now rewrite M3, M2, M1, <- app_assoc.
Qed.

Lemma answer_appended_on_arrival_witness :
  let s := {| Chat.messages := []; Chat.input := js "What is a monad?";
              Chat.selectedChapter := js "All Chapters" |} in
  let um := {| Message.role_ := user;
               Message.content := js "What is a monad?";
               Message.sources := None;
               Message.model := None;
               Message.timestamp := 10 |} in
  let am := fun (response : QueryResult.t) (e2 : env) =>
    {| Message.role_ := assistant;
       Message.content := QueryResult.answer response;
       Message.sources := Some (QueryResult.sources response);
       Message.model := Some (QueryResult.model_used response);
       Message.timestamp := now e2 |} in
  exists u1 k,
    run 2 (at_time 10) (Chat.handleSend (App.chat_props App.init) s)
      (chat_typed (js "What is a monad?") (js "All Chapters"))
    = (u1, [setMessages_append um; setInput []; setIsLoading true],
       Awaiting
         (Api.queryDocuments (js "What is a monad?") Null
            (Val (js "gemini-1.5-flash"))) k)
    /\ option_map Chat.messages (chat_state u1) = Some ([] ++ [um])
    /\ (forall response e2 v s',
          chat_view v = Some {| id := 2; local := s' |} ->
          option_map Chat.messages
            (chat_state (fst (fst (run 2 e2 (k (Resolved response)) v))))
          = Some (Chat.messages s' ++ [am response e2]))
    /\ (forall response e2 v,
          (forall i, chat_view v = Some i -> id i <> 2) ->
          chat_view (fst (fst (run 2 e2 (k (Resolved response)) v)))
          = chat_view v)
    /\ (forall response e2,
          option_map Chat.messages
            (chat_state (fst (fst (run 2 e2 (k (Resolved response)) u1))))
          = Some ([] ++ [um; am response e2])).
Proof.
  apply (@answer_appended_on_arrival (App.chat_props App.init)
           {| Chat.messages := []; Chat.input := js "What is a monad?";
              Chat.selectedChapter := js "All Chapters" |}
           (chat_typed (js "What is a monad?") (js "All Chapters"))
           2 (at_time 10)).
  - reflexivity.
  - reflexivity.
Defined.

(** C9: in a submission with a non-blank input the calls made before the
    query is awaited are, in this order, the append of the user message,
    the reset of the input to the empty string, and the loading flag; at
    the await the input is empty and the history ends with the user
    message; and when the query fails both stay so: the input is not
    restored. *)
Theorem input_reset_not_restored
    (p : Chat.props) (s : Chat.state) (u : ui) (o : nat) (e : env) :
  chat_view u = Some {| id := o; local := s |} ->
  blank (Chat.input s) = false ->
  exists u1 um body k,
    run o e (Chat.handleSend p s) u
    = (u1, [setMessages_append um; setInput []; setIsLoading true],
       Awaiting (PostQuery body) k)
    /\ Message.content um = Chat.input s
    /\ option_map Chat.input (chat_state u1) = Some []
    /\ option_map Chat.messages (chat_state u1) = Some (Chat.messages s ++ [um])
    /\ forall err e2,
         let u2 := fst (fst (run o e2 (k (Rejected err)) u1)) in
         option_map Chat.input (chat_state u2) = Some []
         /\ option_map Chat.messages (chat_state u2)
            = Some (Chat.messages s ++ [um]).
Proof.
  intros Hu Hb.
  destruct (handleSend_sync p s u o e Hb) as [k [Hrun [_ Hfail]]].
  destruct (chat_state_own u o s
              (setMessages_append
                 {| Message.role_ := user; Message.content := Chat.input s;
                    Message.sources := None; Message.model := None;
                    Message.timestamp := now e |}) Hu)
    as [s1 [H1 [M1 _]]].
  destruct (chat_state_own _ o _ (setInput []) H1) as [s2 [H2 [M2 I2]]].
  destruct (chat_state_own _ o _ (setIsLoading true) H2) as [s3 [H3 [M3 I3]]].
  destruct (chat_state_own _ o _ (setIsLoading false) H3) as [s4 [H4 [M4 I4]]].
  eexists. eexists. eexists. exists k.
  split; [exact Hrun|]. split; [reflexivity|].
  unfold chat_state. split; [|split].
  - rewrite H3. simpl. now rewrite I3, I2.
  - rewrite H3. simpl. now rewrite M3, M2, M1.
  - intros err e2. cbv zeta. rewrite Hfail, H4. simpl.
    split; [now rewrite I4, I3, I2 | now rewrite M4, M3, M2, M1].
Qed.

Lemma input_reset_not_restored_witness :
  exists u1 um body k,
    run 2 (at_time 10)
      (Chat.handleSend (App.chat_props App.init)
         {| Chat.messages := []; Chat.input := js "What is a monad?";
            Chat.selectedChapter := js "All Chapters" |})
      (chat_typed (js "What is a monad?") (js "All Chapters"))
    = (u1, [setMessages_append um; setInput []; setIsLoading true],
       Awaiting (PostQuery body) k)
    /\ Message.content um = js "What is a monad?"
    /\ option_map Chat.input (chat_state u1) = Some []
    /\ option_map Chat.messages (chat_state u1) = Some ([] ++ [um])
    /\ forall err e2,
         let u2 := fst (fst (run 2 e2 (k (Rejected err)) u1)) in
         option_map Chat.input (chat_state u2) = Some []
         /\ option_map Chat.messages (chat_state u2) = Some ([] ++ [um]).
Proof.
  apply (@input_reset_not_restored (App.chat_props App.init)
           {| Chat.messages := []; Chat.input := js "What is a monad?";
              Chat.selectedChapter := js "All Chapters" |}
           (chat_typed (js "What is a monad?") (js "All Chapters"))
           2 (at_time 10)).
  - reflexivity.
  - reflexivity.
Defined.

(** A keypress that passes the test of [handleKeyPress] submits. *)
Lemma key_test_triggers (e : KeyboardEvent) :
  str_eqb (key e) (js "Enter") && negb (shiftKey e) = true ->
  triggers_send e.
Proof.
  intros Hc o en p s u Hb. unfold Chat.handleKeyPress. rewrite Hc.
  destruct (handleSend_sync p s (apply_action o preventDefault u) o en Hb)
    as [k [Hrun _]].
  simpl. simpl in Hrun. rewrite Hrun. simpl. discriminate.
Qed.

(** C8, as the spec has it, fails: Enter with Control held, and Shift not
    held, submits although a modifier is held. *)
Lemma ctrl_enter_submits :
  ~ (triggers_send ctrl_enter
     <-> key ctrl_enter = js "Enter" /\ no_modifier ctrl_enter = true).
Proof.
  intros [H _].
  assert (T : triggers_send ctrl_enter)
    by (apply key_test_triggers; reflexivity).
  destruct (H T) as [_ Hm]. vm_compute in Hm. discriminate.
Qed.

(** C8, amended: a keypress in the chat input triggers a submission if and
    only if the key is Enter and Shift is not held (other modifiers are
    not looked at); with Shift held the handler does nothing at all, so
    the default action of the key, the newline, is not prevented. *)
Theorem enter_without_shift_submits (e : KeyboardEvent) :
  (triggers_send e <-> key e = js "Enter" /\ shiftKey e = false)
  /\ (shiftKey e = true -> forall hs, Chat.handleKeyPress hs e = Ret).
Proof.
  split; [split|].
  - intros T.
    destruct (str_eqb (key e) (js "Enter") && negb (shiftKey e)) eqn:Hc.
    + apply andb_true_iff in Hc. destruct Hc as [Hk Hs].
      apply str_eqb_eq in Hk. apply negb_true_iff in Hs. now split.
    + exfalso.
      apply (T 2 (at_time 0) (App.chat_props App.init)
               {| Chat.messages := []; Chat.input := js "x";
                  Chat.selectedChapter := js "All Chapters" |}
               (chat_typed (js "x") (js "All Chapters")));
        [reflexivity|].
      unfold Chat.handleKeyPress. rewrite Hc. reflexivity.
  - intros [Hk Hs]. apply key_test_triggers.
    apply str_eqb_eq in Hk. now rewrite Hk, Hs.
  - intros Hs hs. unfold Chat.handleKeyPress.
    now rewrite Hs, andb_false_r.
Qed.

Lemma enter_without_shift_submits_witness : triggers_send plain_enter.
Proof.
  apply (proj1 (enter_without_shift_submits plain_enter)).
  split; reflexivity.
Defined.

(* ================================================================== *)
(** ** Sidebar: Clear All Data *)

(** C6: for a confirmed Clear All Data, when the clear call succeeds the
    document list and the chapter list are both empty afterwards (their
    counts are 0); when it fails both lists are what they were before the
    call. *)
Theorem clear_all_outcome (u : ui) (o : nat) (t : N) (e2 : env) (b : backend) :
  let u' :=
    fst (fst (complete o {| now := t; confirm_answer := true |} e2 b
                (Sidebar.handleClearAll App.onClear) u)) in
  match b _ Api.clearAllData with
  | Resolved _ =>
      App.documents (app u') = [] /\ App.chapters (app u') = []
      /\ List.length (App.documents (app u')) = 0
      /\ List.length (App.chapters (app u')) = 0
  | Rejected _ =>
      App.documents (app u') = App.documents (app u)
      /\ App.chapters (app u') = App.chapters (app u)
  end.
Proof.
  unfold complete, Sidebar.handleClearAll, Api.clearAllData. simpl.
  destruct (b unit DeleteClear) as [d|err]; simpl; repeat split.
Qed.

(* ================================================================== *)
(** ** Reachable states *)

Lemma on_local_id {S} o (f : S -> S) v :
  option_map (@id S) (on_local o f v) = option_map (@id S) v.
Proof. destruct v as [i|]; simpl; [|reflexivity]. now destruct (id i =? o). Qed.

Lemma ids_of_view {S} (v w : option (inst S)) :
  option_map (@id S) v = option_map (@id S) w ->
  match v with Some i => [id i] | None => [] end
  = match w with Some i => [id i] | None => [] end.
Proof. destruct v, w; simpl; congruence. Qed.

Lemma apply_action_shape o a u : shape (apply_action o a u) = shape u.
Proof.
  unfold shape, mounted_ids.
  destruct a; simpl; try reflexivity;
    f_equal; repeat f_equal; apply ids_of_view, on_local_id.
Qed.

Lemma run_shape o e p u : shape (fst (fst (run o e p u))) = shape u.
Proof.
  revert u.
  induction p as [|a k IH|k IH|m k IH|R r k IH]; simpl; intros u; auto.
  specialize (IH (apply_action o a u)).
  destruct (run o e k (apply_action o a u)) as [[u' tr] r]. simpl in *.
  now rewrite IH, apply_action_shape.
Qed.

Lemma apply_action_flag o a u :
  match a with Sidebar_setIsLoading _ => False | _ => True end ->
  sb_flag (apply_action o a u) = sb_flag u.
Proof.
  unfold sb_flag. destruct a; simpl; try reflexivity; try contradiction.
  intros _. destruct (sidebar u) as [i|]; simpl; [|reflexivity].
  now destruct (id i =? o).
Qed.

Lemma run_quiet o e p u :
  sb_quiet p ->
  sb_flag (fst (fst (run o e p u))) = sb_flag u
  /\ match snd (run o e p u) with
     | Finished => True
     | Awaiting _ k => forall x, sb_quiet (k x)
     end.
Proof.
  revert u.
  induction p as [|a k IH|k IH|m k IH|R r k IH]; simpl; intros u H; auto.
  destruct H as [Ha Hk]. specialize (IH (apply_action o a u) Hk).
  destruct (run o e k (apply_action o a u)) as [[u' tr] r]. simpl in *.
  now rewrite (proj1 IH), apply_action_flag.
Qed.

Ltac plain_cases :=
  repeat match goal with
         | |- plain _ => unfold plain
         | |- _ /\ _ => split
         | |- forall _, _ => intro
         | |- context [match ?o with Resolved _ => _ | Rejected _ => _ end] =>
             destruct o
         | |- _ => progress simpl
         | |- True => exact I
         | |- _ = _ => reflexivity
         end.

Lemma onDrop_plain files : plain (Upload.onDrop files).
Proof.
  unfold Upload.onDrop. destruct (List.length files =? 0)%nat; plain_cases.
Qed.

Lemma handleSend_plain p s : plain (Chat.handleSend p s).
Proof.
  unfold Chat.handleSend.
  destruct (negb (truthy (trim (Chat.input s)))); plain_cases.
Qed.

Lemma handleKeyPress_plain p s k :
  plain (Chat.handleKeyPress (Chat.handleSend p s) k).
Proof.
  unfold Chat.handleKeyPress.
  destruct (str_eqb (key k) (js "Enter") && negb (shiftKey k)).
  - destruct (handleSend_plain p s) as [A [B C]]. repeat split; simpl; auto.
  - plain_cases.
Qed.

Lemma handleGenerateQuiz_plain s : plain (Quiz.handleGenerateQuiz s).
Proof.
  unfold Quiz.handleGenerateQuiz.
  destruct (negb (truthy (Quiz.selectedChapter s))); plain_cases.
Qed.

Lemma handleDownloadQuiz_plain s : plain (Quiz.handleDownloadQuiz s).
Proof.
  unfold Quiz.handleDownloadQuiz. destruct (Quiz.quiz_ s); plain_cases.
Qed.

Lemma loadModels_plain : plain Sidebar.loadModels.
Proof. unfold Sidebar.loadModels. plain_cases. Qed.

Lemma checkBackend_plain : plain App.checkBackend.
Proof. unfold App.checkBackend. plain_cases. Qed.

Lemma dispatch_class t ev u o e p :
  dispatch t ev u = Some (o, e, p) ->
  (o = 0 \/ In o (mounted_ids u))
  /\ single_await p
  /\ (plain p
      \/ exists i, sidebar u = Some i /\ o = id i
                   /\ p = Sidebar.handleClearAll App.onClear
                   /\ ev = ClearClick (confirm_answer e)
                   /\ Sidebar.clear_disabled (sidebar_shown u) (local i)
                      = false).
Proof.
  assert (P : forall q, plain q -> single_await q) by (intros q [A _]; exact A).
  assert (Mc : forall i, chat_view u = Some i -> In (id i) (mounted_ids u)).
  { intros i H. unfold mounted_ids. rewrite H. simpl. auto. }
  assert (Mq : forall i, quiz_view u = Some i -> In (id i) (mounted_ids u)).
  { intros i H. unfold mounted_ids. rewrite H. apply in_or_app. right.
    simpl. auto. }
  assert (Ms : forall i, sidebar u = Some i -> In (id i) (mounted_ids u)).
  { intros i H. unfold mounted_ids. rewrite H. apply in_or_app. right.
    apply in_or_app. right. simpl. auto. }
  destruct ev; simpl; intros H;
    repeat match type of H with
           | match ?x with _ => _ end = _ => destruct x eqn:?
           | (if ?x then _ else _) = _ => destruct x eqn:?
           end;
    try discriminate; inversion H; subst; clear H.
  all: try (split; [auto|]; split; [|left]; 
            first [ apply P | idtac ];
            first [ apply onDrop_plain | apply handleSend_plain
                  | apply handleKeyPress_plain | apply handleGenerateQuiz_plain
                  | apply handleDownloadQuiz_plain
                  | unfold Quiz.onChapterChange, Quiz.onNumQuestionsChange,
                      Quiz.onNewQuiz, App.toggleSidebar; plain_cases ];
            fail).
  split; [right; apply Ms; reflexivity|].
  split.
  - unfold Sidebar.handleClearAll. simpl. intros [|]; simpl; auto.
    intros [d|err]; simpl; auto.
  - right. exists i. repeat split; auto.
Qed.

Lemma handleClearAll_run o e u :
  exists k,
    (forall x, no_await (k x))
    /\ (forall x e' v,
          sb_flag (fst (fst (run o e' (k x) v))) = unload o (sb_flag v))
    /\ run o e (Sidebar.handleClearAll App.onClear) u
       = if confirm_answer e
         then (apply_action o (Sidebar_setIsLoading true) u,
               [Sidebar_setIsLoading true], Awaiting DeleteClear k)
         else (u, [], Finished).
Proof.
  unfold Sidebar.handleClearAll, Api.clearAllData, Api.await.
  eexists. split; [|split].
  3: { simpl. destruct (confirm_answer e); reflexivity. }
  - intros [d|err]; simpl; auto.
  - intros [d|err] e' v; simpl; unfold sb_flag; simpl;
      destruct (sidebar v) as [i|]; simpl; try reflexivity;
      destruct (id i =? o)%nat; reflexivity.
Qed.

Lemma launch_tree o e p c :
  tree (launch o e p c) = fst (fst (run o e p (tree c))).
Proof. unfold launch. now destruct (run o e p (tree c)) as [[u tr] r]. Qed.

Lemma launch_pending o e p c :
  pending (launch o e p c)
  = pending c ++ awaiting o (snd (run o e p (tree c))).
Proof. unfold launch. now destruct (run o e p (tree c)) as [[u tr] r]. Qed.

Lemma count_app {A} (f : A -> bool) (a b : list A) :
  count f (a ++ b) = count f a + count f b.
Proof. unfold count. now rewrite filter_app, length_app. Qed.

Lemma count_remove_nth {A} (f : A -> bool) (l : list A) i x :
  nth_error l i = Some x ->
  count f l = count f (remove_nth i l) + (if f x then 1 else 0).
Proof.
  unfold count. revert i. induction l as [|y r IH]; intros [|i] H; simpl in *;
    try discriminate.
  - inversion H; subst. destruct (f x); simpl; lia.
  - specialize (IH i H). destruct (f y); simpl; lia.
Qed.

Lemma Forall_remove_nth {A} (P : A -> Prop) (l : list A) i :
  Forall P l -> Forall P (remove_nth i l).
Proof.
  intros H. revert i. induction H as [|y r Hy Hr IH]; intros [|i]; simpl; auto.
Qed.

Lemma Forall_nth_error {A} (P : A -> Prop) (l : list A) i x :
  Forall P l -> nth_error l i = Some x -> P x.
Proof.
  intros H Hn. apply nth_error_In in Hn. rewrite Forall_forall in H. auto.
Qed.

Lemma shape_ids u v : shape u = shape v -> mounted_ids u = mounted_ids v.
Proof. unfold shape. congruence. Qed.

Lemma shape_fresh u v : shape u = shape v -> fresh u = fresh v.
Proof. unfold shape. congruence. Qed.

Lemma owner_bound c o :
  0 < fresh (tree c) ->
  Forall (fun j => j < fresh (tree c)) (mounted_ids (tree c)) ->
  o = 0 \/ In o (mounted_ids (tree c)) -> o < fresh (tree c).
Proof.
  intros H0 Hi [->|Hin]; [exact H0|]. rewrite Forall_forall in Hi. auto.
Qed.

Lemma inv_launch_plain c o e p :
  inv c -> o = 0 \/ In o (mounted_ids (tree c)) -> plain p ->
  inv (launch o e p c).
Proof.
  intros [Ic Io Ii If Ifl] Ho [Ps [Pq Pc]].
  pose proof (run_shape o e p (tree c)) as Hs.
  pose proof (run_quiet o e p (tree c) Pq) as [Hq Hk].
  pose proof (run_single_await o e p (tree c) Ps) as Ha.
  pose proof (run_never_clear o e p (tree c) Pc) as Hc.
  pose proof (owner_bound c o If Ii Ho) as Hb.
  constructor; rewrite ?launch_tree, ?launch_pending,
    ?(shape_fresh _ _ Hs), ?(shape_ids _ _ Hs); auto.
  - apply Forall_app. split; [exact Ic|].
    destruct (snd (run o e p (tree c))) as [|R r k]; simpl; constructor; auto.
    split; [exact Ha|]. simpl. simpl in Hc.
    destruct (is_clear r); [discriminate|exact Hk].
  - apply Forall_app. split; [exact Io|].
    destruct (snd (run o e p (tree c))) as [|R r k]; simpl; constructor; auto.
  - intros j b. rewrite Hq. intros Hj. rewrite count_app, (Ifl j b Hj).
    destruct (snd (run o e p (tree c))) as [|R r k]; simpl.
    + unfold count; simpl; lia.
    + unfold count, clear_of. simpl. simpl in Hc.
      destruct (is_clear r); [discriminate|]. simpl. lia.
Qed.

Lemma sb_flag_setLoading i u b :
  sidebar u = Some i ->
  sb_flag (apply_action (id i) (Sidebar_setIsLoading b) u) = Some (id i, b).
Proof.
  intros H. unfold sb_flag. simpl. rewrite H. simpl.
  now rewrite Nat.eqb_refl.
Qed.

Lemma inv_launch_clear c i e :
  inv c -> sidebar (tree c) = Some i ->
  Sidebar.clear_disabled (sidebar_shown (tree c)) (local i) = false ->
  inv (launch (id i) e (Sidebar.handleClearAll App.onClear) c).
Proof.
  intros [Ic Io Ii If Ifl] Hs Hd.
  destruct (handleClearAll_run (id i) e (tree c)) as [k [Kn [Kf Hr]]].
  apply orb_false_iff in Hd. destruct Hd as [Hl _].
  assert (Hb : id i < fresh (tree c)).
  { rewrite Forall_forall in Ii. apply Ii. unfold mounted_ids. rewrite Hs.
    apply in_or_app. right. apply in_or_app. right. simpl. auto. }
  assert (H0 : count (clear_of (id i)) (pending c) = 0).
  { rewrite (Ifl (id i) false); [reflexivity|].
    unfold sb_flag. rewrite Hs. simpl. now rewrite Hl. }
  destruct (confirm_answer e).
  - pose proof (apply_action_shape (id i) (Sidebar_setIsLoading true) (tree c))
      as Hsh.
    constructor; rewrite ?launch_tree, ?launch_pending, Hr; cbn [fst snd];
      rewrite ?(shape_fresh _ _ Hsh), ?(shape_ids _ _ Hsh); auto.
    + apply Forall_app. split; [exact Ic|]. constructor; [|constructor].
      split; [exact Kn|]. simpl. exact Kf.
    + apply Forall_app. split; [exact Io|]. constructor; [exact Hb|constructor].
    + intros j b. rewrite (sb_flag_setLoading i (tree c) true Hs). intros Hj.
      inversion Hj; subst. rewrite count_app, H0.
      unfold count, clear_of. simpl. now rewrite Nat.eqb_refl.
  - constructor; rewrite ?launch_tree, ?launch_pending, Hr; cbn [fst snd];
      rewrite ?app_nil_r; auto.
Qed.

Lemma unload_other o f j b :
  unload o f = Some (j, b) ->
  exists b', f = Some (j, b')
             /\ ((j =? o)%nat = true /\ b = false
                 \/ (j =? o)%nat = false /\ b = b').
Proof.
  destruct f as [[j' b']|]; simpl; [|discriminate].
  destruct (j' =? o)%nat eqn:E; intros H; inversion H; subst;
    (eexists; split; [reflexivity|auto]).
Qed.

Lemma inv_settle c t i b : inv c -> inv (handle t (Settle i b) c).
Proof.
  intros Hc. simpl.
  destruct (nth_error (pending c) i) as [p|] eqn:Hn; [|exact Hc].
  destruct Hc as [Ic Io Ii If Ifl].
  pose proof (Forall_nth_error _ _ _ _ Ic Hn) as [Pn Pk].
  set (e := {| now := t; confirm_answer := false |}).
  pose proof (run_shape (owner p) e (cont p (b _ (req p))) (tree c)) as Hs.
  pose proof (run_no_await (owner p) e (cont p (b _ (req p))) (tree c)
                (Pn _)) as Hf.
  constructor; rewrite ?launch_tree, ?launch_pending; cbn [tree pending];
    rewrite ?Hf; cbn [awaiting]; rewrite ?app_nil_r,
    ?(shape_fresh _ _ Hs), ?(shape_ids _ _ Hs); auto using Forall_remove_nth.
  intros j fl Hj.
  pose proof (count_remove_nth (clear_of j) _ _ _ Hn) as Hcount.
  unfold clear_of at 3 in Hcount.
  destruct (is_clear (req p)) eqn:Ec.
  - rewrite (Pk (b _ (req p)) e (tree c)) in Hj.
    apply unload_other in Hj. destruct Hj as [b' [Hj [[Ej ->]|[Ej ->]]]];
      specialize (Ifl _ _ Hj).
    + rewrite Nat.eqb_sym in Ej. rewrite Ej in Hcount. simpl in Hcount.
      destruct b'; lia.
    + rewrite Nat.eqb_sym in Ej. rewrite Ej in Hcount. simpl in Hcount. lia.
  - simpl in Hcount.
    rewrite (proj1 (run_quiet (owner p) e (cont p (b _ (req p))) (tree c)
                      (Pk _))) in Hj.
    specialize (Ifl _ _ Hj). lia.
Qed.

Lemma inv_exit c t : inv c -> inv (handle t SidebarExited c).
Proof.
  intros Hc. simpl. destruct (App.isSidebarOpen (app (tree c))); [exact Hc|].
  destruct Hc as [Ic Io Ii If Ifl].
  constructor; simpl; auto.
  - unfold mounted_ids in *. simpl.
    rewrite !Forall_app in *. destruct Ii as [A [B _]]. auto.
  - intros j b. unfold sb_flag. simpl. discriminate.
Qed.

Lemma inv_handle c t ev : inv c -> inv (handle t ev c).
Proof.
  intros Hc.
  assert (D : forall o e p, dispatch t ev (tree c) = Some (o, e, p) ->
                            inv (launch o e p c)).
  { intros o e p Hd. apply dispatch_class in Hd.
    destruct Hd as [Ho [_ [Hp|[i [Hs [-> [-> [_ Hdis]]]]]]]].
    - now apply inv_launch_plain.
    - now apply inv_launch_clear. }
  destruct ev; try (now apply inv_exit); try (now apply inv_settle);
    unfold handle;
    match goal with
    | |- context [dispatch ?a ?b ?d] =>
        destruct (dispatch a b d) as [[[o' e'] p']|] eqn:Hd;
        [now apply D|exact Hc]
    end.
Qed.

Lemma count_clear_fresh (l : list pend) (n j : nat) :
  Forall (fun p => owner p < n) l -> n <= j -> count (clear_of j) l = 0.
Proof.
  unfold count, clear_of. intros H Hj.
  induction H as [|p r Hp Hr IH]; simpl; [reflexivity|].
  destruct (Nat.eqb_spec (owner p) j) as [E|E]; [lia|].
  now rewrite andb_false_r.
Qed.

Lemma inv_retree (c : config) (u' : ui) :
  inv c ->
  fresh (tree c) <= fresh u' ->
  Forall (fun j => j < fresh u') (mounted_ids u') ->
  (forall j b, sb_flag u' = Some (j, b) ->
               sb_flag (tree c) = Some (j, b)
               \/ (fresh (tree c) <= j /\ b = false)) ->
  inv {| tree := u'; pending := pending c |}.
Proof.
  intros [Ic Io Ii If Ifl] Hf Hi Hs.
  constructor; simpl; auto.
  - eapply Forall_impl; [|exact Io]. simpl. intros p Hp. lia.
  - lia.
  - intros j b Hj. destruct (Hs j b Hj) as [H|[H ->]].
    + now apply Ifl.
    + now apply (count_clear_fresh _ (fresh (tree c))).
Qed.

Lemma mounted_bounds (u : ui) :
  Forall (fun j => j < fresh u) (mounted_ids u) ->
  (forall i, chat_view u = Some i -> id i < fresh u)
  /\ (forall i, quiz_view u = Some i -> id i < fresh u)
  /\ (forall i, sidebar u = Some i -> id i < fresh u).
Proof.
  unfold mounted_ids. rewrite !Forall_app. intros [A [B C]].
  repeat split; intros i H; rewrite H in *;
    match goal with X : Forall _ [_] |- _ => now inversion X end.
Qed.

Lemma inv_commit (e : env) (c : config) : inv c -> inv (commit e c).
Proof.
  intros Hc. pose proof (inv_ids Hc) as Hi.
  apply mounted_bounds in Hi. destruct Hi as [Bc [Bq Bs]].
  unfold commit.
  destruct (tab_eqb (App.activeTab (app (tree c))) chat);
    destruct (tab_eqb (App.activeTab (app (tree c))) quiz);
    destruct (chat_view (tree c)) as [ci|] eqn:Ec;
    destruct (quiz_view (tree c)) as [qi|] eqn:Eq;
    destruct (sidebar (tree c)) as [si|] eqn:Es;
    destruct (App.isSidebarOpen (app (tree c)));
    try specialize (Bc _ eq_refl); try specialize (Bq _ eq_refl);
    try specialize (Bs _ eq_refl);
    first
      [ apply inv_launch_plain;
        [ apply inv_retree; [exact Hc| simpl; lia | | ]
        | right; unfold mounted_ids; simpl;
          repeat (apply in_or_app; right); simpl; auto
        | apply loadModels_plain ]
      | apply inv_retree; [exact Hc| simpl; lia | | ] ];
    try (unfold mounted_ids; simpl; repeat constructor; lia);
    try (intros j b H; unfold sb_flag in *; simpl in *; rewrite ?Es in *;
         simpl in *;
         first [ left; exact H
               | right; inversion H; subst; split; [lia|reflexivity]
               | discriminate ]).
Qed.

Lemma inv_step (t : N) (ev : event) (c : config) : inv c -> inv (step t ev c).
Proof. intros H. unfold step. now apply inv_commit, inv_handle. Qed.

Lemma inv_start : inv start.
Proof.
  unfold start. apply inv_launch_plain.
  - apply inv_commit. constructor; simpl; auto.
    intros j b H. unfold sb_flag in H. simpl in H. discriminate.
  - now left.
  - apply checkBackend_plain.
Qed.

Lemma inv_reachable (c : config) : reachable c -> inv c.
Proof.
  induction 1 as [|c t ev Hr IH]; [apply inv_start|now apply inv_step].
Qed.

Lemma reachable_steps (evs : list (N * event)) (c : config) :
  reachable c -> reachable (steps evs c).
Proof.
  revert c. induction evs as [|[t ev] r IH]; simpl; intros c H; [exact H|].
  apply IH. now constructor.
Qed.

Lemma clears_count (c : config) :
  clears_in_flight c = count (fun p => is_clear (req p)) (pending c).
Proof. reflexivity. Qed.

Lemma count_pos {A} (f : A -> bool) (l : list A) (x : A) :
  In x l -> f x = true -> 0 < count f l.
Proof.
  unfold count. induction l as [|y r IH]; simpl; [tauto|].
  intros [->|H] Hx.
  - rewrite Hx. simpl. lia.
  - specialize (IH H Hx). destruct (f y); simpl; lia.
Qed.

Lemma launch_clears o e p c :
  clears_in_flight (launch o e p c)
  = clears_in_flight c + clear_issued (snd (run o e p (tree c))).
Proof.
  rewrite !clears_count, launch_pending, count_app. f_equal.
  destruct (snd (run o e p (tree c))) as [|R r k]; simpl; [reflexivity|].
  unfold count. simpl. now destruct (is_clear r).
Qed.

Lemma commit_clears e c : clears_in_flight (commit e c) = clears_in_flight c.
Proof.
  unfold commit.
  destruct (tab_eqb (App.activeTab (app (tree c))) chat);
    destruct (tab_eqb (App.activeTab (app (tree c))) quiz);
    destruct (chat_view (tree c)); destruct (quiz_view (tree c));
    destruct (sidebar (tree c)); destruct (App.isSidebarOpen (app (tree c)));
    try reflexivity;
    rewrite launch_clears, run_never_clear; try (apply loadModels_plain);
    unfold clears_in_flight; simpl; lia.
Qed.

Lemma handle_clears (c : config) (t : N) (ev : event) :
  inv c ->
  clears_in_flight c < clears_in_flight (handle t ev c) ->
  ev = ClearClick true /\ clear_enabled c = true
  /\ clears_in_flight (handle t ev c) = S (clears_in_flight c).
Proof.
  intros Hc.
  assert (D : forall o e p,
             dispatch t ev (tree c) = Some (o, e, p) ->
             clears_in_flight c < clears_in_flight (launch o e p c) ->
             ev = ClearClick true /\ clear_enabled c = true
             /\ clears_in_flight (launch o e p c) = S (clears_in_flight c)).
  { intros o e p Hd. apply dispatch_class in Hd.
    destruct Hd as [_ [_ [[_ [_ Hp]]|[i [Hs [-> [-> [-> Hdis]]]]]]]];
      rewrite launch_clears.
    - rewrite (run_never_clear _ _ _ _ Hp). lia.
    - destruct (handleClearAll_run (id i) e (tree c)) as [k [_ [_ Hr]]].
      rewrite Hr. destruct (confirm_answer e); simpl; [|lia].
      intros _. unfold clear_enabled. rewrite Hs, Hdis.
      repeat split. lia. }
  destruct ev;
    try (unfold handle;
         match goal with
         | |- context [dispatch ?a ?b ?d] =>
             destruct (dispatch a b d) as [[[o' e'] p']|] eqn:Hd;
             [now apply D|lia]
         end; fail).
  - simpl. destruct (App.isSidebarOpen (app (tree c))); unfold clears_in_flight;
      simpl; lia.
  - simpl. destruct (nth_error (pending c) i) as [p|] eqn:Hn; [|lia].
    rewrite launch_clears. cbn [tree pending].
    pose proof (Forall_nth_error _ _ _ _ (inv_cont Hc) Hn) as [Pn _].
    rewrite (run_no_await _ _ _ _ (Pn _)). simpl.
    rewrite !clears_count. cbn [pending].
    rewrite (count_remove_nth (fun p => is_clear (req p)) _ _ _ Hn). lia.
Qed.

Lemma disabled_click_ignored (c : config) (t : N) (a : bool) :
  clear_enabled c = false -> handle t (ClearClick a) c = c.
Proof.
  unfold clear_enabled, handle, dispatch.
  destruct (sidebar (tree c)) as [i|]; [|reflexivity].
  intros H. apply negb_false_iff in H. now rewrite H.
Qed.

(* ================================================================== *)
(** ** Quiz and Clear All Data over the whole application *)

(** C5, the question count: the number input is not clamped by its
    handler.  After 50 is typed into it, or after it is emptied, pressing
    Generate with a chapter selected posts a quiz request whose
    [num_questions] is 50, respectively NaN, outside the range from 1 to 10
    that the input declares with [min] and [max]. *)
Theorem quiz_count_unclamped :
  calls (steps (quiz_typed (js "50")) start)
  = [ existT request _ GetModels; existT request _ GetHealth;
      existT request _
        (PostGenerateQuiz {| QuizBody.chapter := js "Chapter 1";
                             QuizBody.num_questions := Some (Num 50) |}) ]
  /\ calls (steps (quiz_typed []) start)
     = [ existT request _ GetModels; existT request _ GetHealth;
         existT request _
           (PostGenerateQuiz {| QuizBody.chapter := js "Chapter 1";
                                QuizBody.num_questions := Some NaN |}) ].
Proof. split; vm_compute; reflexivity. Qed.

(** The other half of C5 holds: with no chapter selected the handler
    shows an error toast and calls nothing. *)
Lemma generate_needs_chapter (s : Quiz.state) (u : ui) (o : nat) (e : env) :
  Quiz.selectedChapter s = [] ->
  run o e (Quiz.handleGenerateQuiz s) u
  = (u, [toast error (js "Please select a chapter")], Finished).
Proof. intros H. unfold Quiz.handleGenerateQuiz. now rewrite H. Qed.

Lemma commit_leaving (e : env) (c : config) :
  leaving (tree (commit e c))
  = match sidebar (tree c), App.isSidebarOpen (app (tree c)) with
    | Some _, false => Some (sidebar_shown (tree c))
    | _, _ => None
    end.
Proof.
  unfold commit.
  destruct (tab_eqb (App.activeTab (app (tree c))) chat);
    destruct (tab_eqb (App.activeTab (app (tree c))) quiz);
    destruct (chat_view (tree c)); destruct (quiz_view (tree c));
    destruct (sidebar (tree c)); destruct (App.isSidebarOpen (app (tree c)));
    rewrite ?launch_tree; reflexivity.
Qed.

Lemma commit_app e c : app (tree (commit e c)) = app (tree c).
Proof.
  unfold commit.
  destruct (tab_eqb (App.activeTab (app (tree c))) chat);
    destruct (tab_eqb (App.activeTab (app (tree c))) quiz);
    destruct (chat_view (tree c)); destruct (quiz_view (tree c));
    destruct (sidebar (tree c)); destruct (App.isSidebarOpen (app (tree c)));
    try reflexivity; rewrite launch_tree; reflexivity.
Qed.

(** An open sidebar is rendered with the state of [App]. *)
Lemma open_sidebar_live (c : config) :
  reachable c ->
  App.isSidebarOpen (app (tree c)) = true ->
  sidebar_shown (tree c) = App.sidebar_props (app (tree c)).
Proof.
  intros Hr Ho. unfold sidebar_shown.
  destruct Hr as [|c t ev Hr]; [reflexivity|].
  unfold step in *. rewrite commit_app in *. rewrite commit_leaving, Ho.
  now destruct (sidebar (tree (handle t ev c))).
Qed.

(** C10, as the spec has it, fails, in two ways.  The loading flag that
    disables the button lives in the sidebar instance, and a sidebar that
    is closed and opened again is a new instance: its button is enabled
    although the clear call of the former instance is still in flight, and
    a confirmed click issues a second one.  And a sidebar that is closed
    keeps, while it animates out, the document list of its last render: if
    its clear call succeeds in that time, its button is enabled although
    the document list of the application is empty, and a confirmed click
    calls the clear endpoint with zero documents. *)
Lemma clear_enabled_during_clear :
  let c := steps reopened_sidebar start in
  let d := steps closing_sidebar start in
  (reachable c
   /\ clears_in_flight c = 1
   /\ clear_enabled c = true
   /\ clears_in_flight (step 7 (ClearClick true) c) = 2)
  /\ (reachable d
      /\ App.documents (app (tree d)) = []
      /\ clears_in_flight d = 0
      /\ clear_enabled d = true
      /\ clears_in_flight (step 6 (ClearClick true) d) = 1).
Proof.
  split; (split; [apply reachable_steps, reach_start|]);
    repeat split; vm_compute; reflexivity.
Qed.

(** C10, amended: the Clear All Data button is disabled while the loading
    flag of the sidebar is up and while the document list the sidebar is
    rendered with is empty.  In every reachable state, then: an open
    sidebar has the button disabled while the application holds no
    document; the button is disabled while a clear call made by the
    sidebar instance now mounted is in flight; a click on the disabled
    button runs no handler; and a step adds a clear call to the calls in
    flight only if it is a confirmed click on the enabled button, with at
    least one document in the list the sidebar shows, which for an open
    sidebar is the list of the application.  (A sidebar opened again is a
    new instance with its flag down, and a sidebar that animates out shows
    the list of its last render.) *)
Theorem clear_guard (c : config) :
  reachable c ->
  (App.isSidebarOpen (app (tree c)) = true ->
   App.documents (app (tree c)) = [] -> clear_enabled c = false)
  /\ (Sidebar.documents (sidebar_shown (tree c)) = [] ->
      clear_enabled c = false)
  /\ (forall i p, sidebar (tree c) = Some i -> In p (pending c) ->
                  is_clear (req p) = true -> owner p = id i ->
                  clear_enabled c = false)
  /\ (clear_enabled c = false ->
      forall t a, handle t (ClearClick a) c = c)
  /\ (forall t ev,
        clears_in_flight c < clears_in_flight (step t ev c) ->
        ev = ClearClick true /\ clear_enabled c = true
        /\ Sidebar.documents (sidebar_shown (tree c)) <> []
        /\ (App.isSidebarOpen (app (tree c)) = true ->
            App.documents (app (tree c)) <> [])
        /\ clears_in_flight (step t ev c) = S (clears_in_flight c)).
Proof.
  intros Hr. pose proof (inv_reachable c Hr) as Hc.
  assert (Hempty : Sidebar.documents (sidebar_shown (tree c)) = [] ->
                   clear_enabled c = false).
  { intros Hd. unfold clear_enabled, Sidebar.clear_disabled.
    destruct (sidebar (tree c)) as [i|]; [|reflexivity].
    rewrite Hd. simpl. now rewrite orb_true_r. }
  split; [|split; [exact Hempty|split; [|split]]].
  - intros Ho Hd. apply Hempty. rewrite (open_sidebar_live c Hr Ho). exact Hd.
  - intros i p Hs Hin Hcl Ho.
    assert (Hpos : 0 < count (clear_of (id i)) (pending c)).
    { apply (count_pos _ _ p Hin). unfold clear_of.
      now rewrite Hcl, Ho, Nat.eqb_refl. }
    rewrite (@inv_flag c Hc (id i) (Sidebar.isLoading (local i))) in Hpos.
    + unfold clear_enabled, Sidebar.clear_disabled. rewrite Hs.
      destruct (Sidebar.isLoading (local i)); [reflexivity|lia].
    + unfold sb_flag. now rewrite Hs.
  - intros Hd t a. now apply disabled_click_ignored.
  - intros t ev. unfold step. rewrite commit_clears. intros Hlt.
    destruct (handle_clears c t ev Hc Hlt) as [-> [He Hn]].
    assert (Hdocs : Sidebar.documents (sidebar_shown (tree c)) <> []).
    { intros Hd. rewrite (Hempty Hd) in He. discriminate. }
    repeat split; auto.
    intros Ho Hd. apply Hdocs. rewrite (open_sidebar_live c Hr Ho). exact Hd.
Qed.

Lemma clear_guard_witness :
  clear_enabled start = false
  /\ (ClearClick true = ClearClick true
      /\ clear_enabled uploaded = true
      /\ Sidebar.documents (sidebar_shown (tree uploaded)) <> []
      /\ (App.isSidebarOpen (app (tree uploaded)) = true ->
          App.documents (app (tree uploaded)) <> [])
      /\ clears_in_flight (step 3 (ClearClick true) uploaded)
         = S (clears_in_flight uploaded))
  /\ clear_enabled clearing = false
  /\ forall t a, handle t (ClearClick a) clearing = clearing.
Proof.
  assert (Ru : reachable uploaded) by apply reachable_steps, reach_start.
  assert (Rc : reachable clearing) by apply reach_step, Ru.
  assert (Hp : exists p, nth_error (pending clearing) 2 = Some p
                         /\ is_clear (req p) = true /\ owner p = 1).
  { vm_compute. eexists. repeat split. }
  destruct Hp as [p [Hn [Hcl Ho]]].
  assert (Hd : clear_enabled clearing = false).
  { apply (proj1 (proj2 (proj2 (clear_guard clearing Rc)))
             {| id := 1;
                local := {| Sidebar.models := [];
                            Sidebar.isLoading := true |} |} p).
    - reflexivity.
    - apply (nth_error_In _ _ Hn).
    - exact Hcl.
    - exact Ho. }
  split; [|split; [|split; [exact Hd|]]].
  - apply (proj1 (clear_guard start reach_start)); reflexivity.
  - apply (proj2 (proj2 (proj2 (proj2 (clear_guard uploaded Ru))))
             3%N (ClearClick true)).
    vm_compute. lia.
  - apply (proj1 (proj2 (proj2 (proj2 (clear_guard clearing Rc)))) Hd).
Defined.

(* ================================================================== *)
(** ** Numbers as text: [parseInt] reads back what is printed *)






(* ================================================================== *)
(** ** Upload: the size shown for a file *)

Lemma unit_index_bounds (bytes : N) :
  (0 < bytes)%N ->
  let i := (N.log2 bytes / 10)%N in
  (1024 ^ i <= bytes < 1024 * 1024 ^ i)%N.
Proof.
  intros Hb i.
  destruct (N.log2_spec bytes Hb) as [Hlo Hhi].
  assert (E : (1024 ^ i = 2 ^ (10 * i))%N).
  { change 1024%N with (2 ^ 10)%N. now rewrite <- N.pow_mul_r. }
  pose proof (N.Div0.mul_div_le (N.log2 bytes) 10) as Hd.
  pose proof (N.mul_succ_div_gt (N.log2 bytes) 10 ltac:(lia)) as Hu.
  fold i in Hd, Hu. rewrite E. split.
  - apply N.le_trans with (2 ^ N.log2 bytes)%N; [|exact Hlo].
    apply N.pow_le_mono_r; lia.
  - apply N.lt_le_trans with (2 ^ N.succ (N.log2 bytes))%N; [exact Hhi|].
    change 1024%N with (2 ^ 10)%N. rewrite <- N.pow_add_r.
    apply N.pow_le_mono_r; lia.
Qed.

Lemma toFixed2_bounds (bytes d : N) :
  (0 < d)%N -> (d <= bytes < 1024 * d)%N ->
  (100 <= toFixed2 bytes d <= 102400)%N.
Proof.
  intros Hd [Hlo Hhi]. unfold toFixed2. split.
  - apply N.div_le_lower_bound; lia.
  - apply N.lt_succ_r, N.Div0.div_lt_upper_bound; lia.
Qed.

(** X1: a size below 1024 bytes is shown as the byte count itself, with no
    decimals, followed by " Bytes". *)
Theorem formatFileSize_small (bytes : N) :
  (0 < bytes < 1024)%N -> formatFileSize bytes = dec bytes ++ js " Bytes".
Proof.
  intros [H0 H1]. unfold formatFileSize.
  destruct (N.eqb_spec bytes 0) as [E|_]; [lia|].
  assert (Hi : (N.log2 bytes / 10 = 0)%N).
  { apply N.div_small. apply N.log2_lt_pow2; [exact H0|].
    change (2 ^ 10)%N with 1024%N. exact H1. }
  cbv zeta. rewrite Hi. change (1024 ^ 0)%N with 1%N.
  unfold toFixed2, print_hundredths.
  replace ((200 * bytes + 1) / (2 * 1))%N with (100 * bytes)%N.
  2:{ apply N.div_unique with 1%N; lia. }
  cbv zeta.
  replace (100 * bytes mod 100)%N with 0%N.
  2:{ symmetry. rewrite N.mul_comm. apply N.Div0.mod_mul. }
  replace (100 * bytes / 100)%N with bytes.
  2:{ symmetry. rewrite N.mul_comm. apply N.div_mul. lia. }
  reflexivity.
Qed.

(** X2: for every non-empty file the dropzone accepts (at most 200 MB) the
    size shown is a number between 1 and 1024, printed from its hundredths,
    followed by one of the units Bytes, KB and MB; the table of units is
    never left. *)
Theorem formatFileSize_accepted (bytes : N) :
  (0 < bytes <= Upload.maxSize)%N ->
  exists h unit,
    formatFileSize bytes = print_hundredths h ++ js " " ++ unit
    /\ (100 <= h <= 102400)%N
    /\ In unit [js "Bytes"; js "KB"; js "MB"].
Proof.
  intros [H0 H1]. unfold formatFileSize.
  destruct (N.eqb_spec bytes 0) as [E|_]; [lia|].
  cbv zeta. pose proof (unit_index_bounds bytes H0) as Hb. cbv zeta in Hb.
  set (i := (N.log2 bytes / 10)%N) in *.
  assert (Hi : (i <= 2)%N).
  { apply N.lt_succ_r. destruct (N.lt_ge_cases i 3) as [L|G]; [lia|].
    exfalso. assert (1024 ^ 3 <= 1024 ^ i)%N by (apply N.pow_le_mono_r; lia).
    unfold Upload.maxSize in H1. change (1024 ^ 3)%N with 1073741824%N in H.
    lia. }
  exists (toFixed2 bytes (1024 ^ i)), (sizes_at i). split; [reflexivity|].
  split.
  - apply toFixed2_bounds; [|exact Hb].
    apply N.neq_0_lt_0, N.pow_nonzero. discriminate.
  - assert (Hc : i = 0%N \/ i = 1%N \/ i = 2%N) by lia.
    destruct Hc as [-> | [-> | ->]]; simpl; auto.
Qed.

(* ================================================================== *)
(** ** What every handler does, and the calls in flight *)

Lemma dispatch_handler t ev u o e p :
  dispatch t ev u = Some (o, e, p) -> handler p.
Proof.
  destruct ev; simpl; intros H;
    repeat match type of H with
           | match ?x with _ => _ end = _ => destruct x eqn:?
           | (if ?x then _ else _) = _ => destruct x eqn:?
           end;
    try discriminate; inversion H; subst; clear H; try constructor.
  apply andb_true_iff in Heqb. tauto.
Qed.

Lemma known_elim (Q : pend -> Prop) :
  (forall h, handler h -> forall o e u,
      match snd (run o e h u) with
      | Finished => True
      | Awaiting r k => Q {| owner := o; req := r; cont := k |}
      end) ->
  forall p, known p -> Q p.
Proof.
  intros HQ p [e [h [u [Hh Hp]]]]. specialize (HQ h Hh (owner p) e u).
  destruct (snd (run (owner p) e h u)) as [|R r k]; simpl in Hp;
    [discriminate|].
  injection Hp as E. rewrite E in HQ. exact HQ.
Qed.

Ltac run_handler :=
  unfold Upload.onDrop, Chat.handleKeyPress, Chat.handleSend,
    Quiz.handleGenerateQuiz, Quiz.handleDownloadQuiz, Quiz.onChapterChange,
    Quiz.onNumQuestionsChange, Quiz.onNewQuiz, Sidebar.loadModels,
    Sidebar.handleClearAll, App.checkBackend, App.toggleSidebar, App.onClear,
    Api.await, Api.uploadPDFs, Api.queryDocuments, Api.generateQuiz,
    Api.getModels, Api.clearAllData, Api.healthCheck;
  rewrite ?not_trim_blank;
  repeat (cbn -[js formatFileSize dec blank trim Upload.maxSize N.leb];
          match goal with
          | |- context [if ?c then _ else _] => destruct c eqn:?
          | |- context [match Quiz.quiz_ ?s with _ => _ end] =>
              destruct (Quiz.quiz_ s)
          | |- context [match ?x with Resolved _ => _ | Rejected _ => _ end] =>
              destruct x
          end);
  cbn -[js formatFileSize dec blank trim Upload.maxSize N.leb].

Lemma upload_form_wf (files : list File.t) :
  forallb (fun f => (File.size f <=? Upload.maxSize)%N) files = true ->
  Forall (fun ff => fst ff = js "files"
                    /\ (File.size (snd ff) <= Upload.maxSize)%N)
    (map (fun file => (js "files", file)) files).
Proof.
  intros H. rewrite forallb_forall in H. apply Forall_forall.
  intros [field f] Hin. apply in_map_iff in Hin.
  destruct Hin as [f' [E Hf]]. inversion E; subst. simpl. split; [reflexivity|].
  apply N.leb_le. now apply H.
Qed.

Lemma handler_wf h :
  handler h -> forall o e u,
    match snd (run o e h u) with
    | Finished => True
    | Awaiting r _ => wf_call r
    end.
Proof.
  intros Hh o e u. destruct Hh; run_handler; auto.
  - split; [destruct files; [discriminate|discriminate]|].
    now apply upload_form_wf.
  - split; [assumption|discriminate].
  - split; [assumption|].
    intros E. injection E as E. apply str_eqb_eq in E. congruence.
  - split; [assumption|discriminate].
  - split; [assumption|].
    intros E. injection E as E. apply str_eqb_eq in E. congruence.
  - intros E. rewrite E in *. discriminate.
Qed.

Ltac chat_goal :=
  let i := fresh "i" in
  let Hi := fresh "Hi" in
  intros i Hi; cbn; rewrite ?Hi; cbn;
  repeat match goal with
         | |- context [(id ?j =? ?o)%nat] => destruct (id j =? o)%nat; cbn
         end;
  eexists;
  first [ exists []; split; [reflexivity|]; split; [reflexivity|];
          split; [simpl; lia|now rewrite app_nil_r]
        | eexists; split; [reflexivity|]; split; [reflexivity|];
          split; [|reflexivity]; simpl; lia ].

Lemma handler_sync h :
  handler h -> forall o e u,
    let u' := fst (fst (run o e h u)) in
    lists_same (app u) (app u')
    /\ chat_step u u'
    /\ (App.isLoading (app u') = App.isLoading (app u)
        \/ match snd (run o e h u) with
           | Finished => False
           | Awaiting r _ => busy r = true
           end).
Proof.
  intros Hh o e u. destruct Hh; run_handler;
    (split; [split; reflexivity|]); (split; [chat_goal|]); auto.
Qed.

Lemma handler_cont h :
  handler h -> forall o e u,
    match snd (run o e h u) with
    | Finished => True
    | Awaiting r k =>
        forall x e' v,
          let v' := fst (fst (run o e' (k x) v)) in
          lists_change (app v) (app v')
          /\ chat_step v v'
          /\ App.isLoading (app v')
             = (if busy r then false else App.isLoading (app v))
    end.
Proof.
  intros Hh o e u. destruct Hh; run_handler; auto;
    intros x e' v; destruct x; cbn -[js formatFileSize dec];
    (split; [|split; [chat_goal|reflexivity]]);
    try (left; split; reflexivity).
  - right. left. eexists. split; [|reflexivity].
    destruct files; discriminate.
  - right. right. split; reflexivity.
Qed.

Lemma known_launch o e h c :
  handler h -> Forall known (pending c) ->
  Forall known (pending (launch o e h c)).
Proof.
  intros Hh Hc. rewrite launch_pending. apply Forall_app. split; [exact Hc|].
  destruct (snd (run o e h (tree c))) as [|R r k] eqn:Hr; simpl; constructor;
    [|constructor].
  exists e, h, (tree c). split; [exact Hh|]. simpl. now rewrite Hr.
Qed.

Lemma known_commit e c :
  Forall known (pending c) -> Forall known (pending (commit e c)).
Proof.
  intros Hc. unfold commit.
  destruct (tab_eqb (App.activeTab (app (tree c))) chat);
    destruct (tab_eqb (App.activeTab (app (tree c))) quiz);
    destruct (chat_view (tree c)); destruct (quiz_view (tree c));
    destruct (sidebar (tree c)); destruct (App.isSidebarOpen (app (tree c)));
    try exact Hc; apply known_launch; try exact Hc; constructor.
Qed.

Lemma known_handle c t ev :
  inv c -> Forall known (pending c) -> Forall known (pending (handle t ev c)).
Proof.
  intros Hi Hc. destruct ev;
    try (unfold handle;
         match goal with
         | |- context [dispatch ?a ?b ?d] =>
             destruct (dispatch a b d) as [[[o' e'] p']|] eqn:Hd;
             [apply known_launch; [now apply dispatch_handler in Hd|exact Hc]
             |exact Hc]
         end; fail).
  - simpl. now destruct (App.isSidebarOpen (app (tree c))).
  - simpl. destruct (nth_error (pending c) i) as [p|] eqn:Hn; [|exact Hc].
    rewrite launch_pending. cbn [tree pending].
    pose proof (Forall_nth_error _ _ _ _ (inv_cont Hi) Hn) as [Pn _].
    rewrite (run_no_await _ _ _ _ (Pn _)). simpl. rewrite app_nil_r.
    now apply Forall_remove_nth.
Qed.

Lemma known_reachable c : reachable c -> Forall known (pending c).
Proof.
  induction 1 as [|c t ev Hr IH].
  - unfold start. apply known_launch; [constructor|].
    apply known_commit. constructor.
  - unfold step. apply known_commit, known_handle; [|exact IH].
    now apply inv_reachable.
Qed.

Lemma known_wf p : known p -> wf_call (req p).
Proof.
  apply (known_elim (fun p => wf_call (req p))).
  intros h Hh o e u. apply (handler_wf h Hh o e u).
Qed.

Lemma known_after p :
  known p -> forall x e v,
    lists_change (app v) (app (after p x e v))
    /\ chat_step v (after p x e v)
    /\ App.isLoading (app (after p x e v))
       = (if busy (req p) then false else App.isLoading (app v)).
Proof.
  apply (known_elim (fun p => forall x e v,
    lists_change (app v) (app (after p x e v))
    /\ chat_step v (after p x e v)
    /\ App.isLoading (app (after p x e v))
       = (if busy (req p) then false else App.isLoading (app v)))).
  intros h Hh o e u. pose proof (handler_cont h Hh o e u) as H.
  destruct (snd (run o e h u)) as [|R r k]; [exact I|exact H].
Qed.

(** X10: in every reachable state every call in flight is well formed: no
    upload without a file, with a file over the size limit or with a field
    name other than "files", no query with a blank text or with the "All
    Chapters" sentinel as filter, no quiz request with an empty chapter. *)
Theorem calls_in_flight_wellformed (c : config) :
  reachable c -> Forall (fun p => wf_call (req p)) (pending c).
Proof.
  intros Hr. eapply Forall_impl; [|apply known_reachable, Hr].
  intros p. apply known_wf.
Qed.

(** X12: a step from a reachable state leaves the document and chapter
    lists as they were, or appends documents at the end, or empties both
    lists together; and only the settling of a call changes them at all.
    No document is ever removed or replaced on its own. *)
Theorem lists_grow_or_reset (c : config) (t : N) (ev : event) :
  reachable c ->
  lists_change (app (tree c)) (app (tree (step t ev c)))
  /\ ((forall i b, ev <> Settle i b) ->
      lists_same (app (tree c)) (app (tree (step t ev c)))).
Proof.
  intros Hr. unfold step. rewrite commit_app.
  pose proof (known_reachable c Hr) as Hk.
  assert (D : forall o e p, dispatch t ev (tree c) = Some (o, e, p) ->
               lists_same (app (tree c)) (app (tree (launch o e p c)))).
  { intros o e p Hd. rewrite launch_tree.
    apply (handler_sync p (dispatch_handler _ _ _ _ _ _ Hd) o e (tree c)). }
  assert (S : lists_same (app (tree c)) (app (tree c))) by (split; reflexivity).
  destruct ev;
    try (unfold handle;
         match goal with
         | |- context [dispatch ?a ?b ?d] =>
             destruct (dispatch a b d) as [[[o' e'] p']|] eqn:Hd;
             [specialize (D _ _ _ eq_refl)|];
             (split; [left|intros _]; assumption)
         end; fail).
  - simpl. destruct (App.isSidebarOpen (app (tree c)));
      (split; [left|intros _]; exact S).
  - split; [|intros H; now elim (H i b)].
    simpl. destruct (nth_error (pending c) i) as [p|] eqn:Hn; [|now left].
    rewrite launch_tree. cbn [tree].
    apply (known_after p (Forall_nth_error _ _ _ _ Hk Hn)).
Qed.

(** X11: in every reachable state a raised loading flag means that an
    upload, query or quiz call is in flight.  The converse fails: after two
    uploads were started and one has settled, the flag is down while the
    other upload is still in flight. *)
Theorem loading_means_call_in_flight :
  (forall c, reachable c ->
     App.isLoading (app (tree c)) = true ->
     exists p, In p (pending c) /\ busy (req p) = true)
  /\ (exists c, reachable c
                /\ App.isLoading (app (tree c)) = false
                /\ exists p, In p (pending c) /\ busy (req p) = true).
Proof.
  split.
  - intros c Hr. induction Hr as [|c t ev Hr IH].
    + vm_compute. discriminate.
    + unfold step. rewrite commit_app.
      assert (Hc : forall c',
                 (exists p, In p (pending c') /\ busy (req p) = true) ->
                 exists p,
                   In p (pending (commit {| now := t; confirm_answer := false |}
                                    c'))
                   /\ busy (req p) = true).
      { intros c' [p [Hin Hb]]. exists p. split; [|exact Hb].
        unfold commit.
        destruct (tab_eqb (App.activeTab (app (tree c'))) chat);
          destruct (tab_eqb (App.activeTab (app (tree c'))) quiz);
          destruct (chat_view (tree c')); destruct (quiz_view (tree c'));
          destruct (sidebar (tree c'));
          destruct (App.isSidebarOpen (app (tree c')));
          try exact Hin; rewrite launch_pending; apply in_or_app; now left. }
      intros Hl. apply Hc. clear Hc.
      pose proof (known_reachable c Hr) as Hk.
      assert (D : forall o e p, dispatch t ev (tree c) = Some (o, e, p) ->
                 App.isLoading (app (tree (launch o e p c))) = true ->
                 exists q, In q (pending (launch o e p c))
                           /\ busy (req q) = true).
      { intros o e p Hd. rewrite launch_tree, launch_pending.
        destruct (handler_sync p (dispatch_handler _ _ _ _ _ _ Hd) o e (tree c))
          as [_ [_ [Hs|Hs]]].
        - rewrite Hs. intros Hl'. destruct (IH Hl') as [q [Hq Hb]].
          exists q. split; [apply in_or_app; now left|exact Hb].
        - intros _. destruct (snd (run o e p (tree c))) as [|R r k];
            [contradiction|].
          eexists. split; [apply in_or_app; right; simpl; left; reflexivity|].
          exact Hs. }
      destruct ev;
        try (unfold handle in *;
             match goal with
             | |- context [dispatch ?a ?b ?d] =>
                 destruct (dispatch a b d) as [[[o' e'] p']|] eqn:Hd;
                 [now apply (D _ _ _ eq_refl)|now apply IH]
             end; fail).
      * simpl in *. destruct (App.isSidebarOpen (app (tree c))); now apply IH.
      * simpl in *. destruct (nth_error (pending c) i) as [p|] eqn:Hn;
          [|now apply IH].
        rewrite launch_tree in Hl. rewrite launch_pending.
        cbn [tree pending] in *.
        pose proof (known_after p (Forall_nth_error _ _ _ _ Hk Hn)
                      (b _ (req p)) {| now := t; confirm_answer := false |}
                      (tree c)) as [_ [_ Hload]].
        unfold after in Hload. rewrite Hload in Hl.
        destruct (busy (req p)) eqn:Hb; [discriminate|].
        destruct (IH Hl) as [q [Hq Hbq]]. exists q. split; [|exact Hbq].
        apply in_or_app. left.
        clear - Hq Hn Hb Hbq. revert i Hn.
        induction (pending c) as [|y r IHr]; intros [|i] Hn; simpl in *;
          try contradiction; try discriminate.
        -- inversion Hn; subst. destruct Hq as [->|Hq]; [congruence|exact Hq].
        -- destruct Hq as [->|Hq]; [now left|right; now apply (IHr Hq i)].
  - exists (steps [(1, Drop [notes_pdf]); (2, Drop [notes_pdf]);
                   (3, Settle 2 backend_up)]%N start).
    split; [apply reachable_steps, reach_start|].
    split; [vm_compute; reflexivity|].
    eexists. split; [right; right; left; reflexivity|reflexivity].
Qed.

Lemma commit_chat e c i :
  chat_view (tree c) = Some i ->
  chat_view (tree (commit e c)) = None
  \/ chat_view (tree (commit e c)) = Some i.
Proof.
  intros Hi. unfold commit. rewrite Hi.
  destruct (tab_eqb (App.activeTab (app (tree c))) chat);
    destruct (tab_eqb (App.activeTab (app (tree c))) quiz);
    destruct (quiz_view (tree c));
    destruct (sidebar (tree c)); destruct (App.isSidebarOpen (app (tree c)));
    rewrite ?launch_tree; cbn; auto.
Qed.

(** X13: a step from a reachable state either unmounts the chat or keeps
    the same chat instance with its history extended by at most one message
    at the end; no message is ever edited, reordered or removed. *)
Theorem messages_append_only (c : config) (t : N) (ev : event)
    (i : inst Chat.state) :
  reachable c ->
  chat_view (tree c) = Some i ->
  chat_view (tree (step t ev c)) = None
  \/ exists i' more,
       chat_view (tree (step t ev c)) = Some i' /\ id i' = id i
       /\ List.length more <= 1
       /\ Chat.messages (local i') = Chat.messages (local i) ++ more.
Proof.
  intros Hr Hi.
  pose proof (known_reachable c Hr) as Hk.
  assert (H : chat_step (tree c) (tree (handle t ev c))).
  { assert (S : chat_step (tree c) (tree c)).
    { intros j Hj. exists j, []. rewrite app_nil_r. simpl. auto. }
    destruct ev;
      try (unfold handle;
           match goal with
           | |- context [dispatch ?a ?b ?d] =>
               destruct (dispatch a b d) as [[[o' e'] p']|] eqn:Hd;
               [rewrite launch_tree;
                apply (handler_sync p' (dispatch_handler _ _ _ _ _ _ Hd))
               |exact S]
           end; fail).
    - simpl. destruct (App.isSidebarOpen (app (tree c))); [exact S|].
      intros j Hj. exists j, []. rewrite app_nil_r. simpl. auto.
    - simpl. destruct (nth_error (pending c) i0) as [p|] eqn:Hn; [|exact S].
      rewrite launch_tree. cbn [tree].
      apply (known_after p (Forall_nth_error _ _ _ _ Hk Hn)). }
  destruct (H i Hi) as [i' [more [H1 [H2 [H3 H4]]]]].
  unfold step.
  destruct (commit_chat {| now := t; confirm_answer := false |} _ i' H1)
    as [E|E]; [now left|].
  right. exists i', more. auto.
Qed.

Lemma handle_tab (c : config) (t : N) (t' : tab) :
  App.activeTab (app (tree (handle t (TabClick t') c))) = t'
  /\ quiz_view (tree (handle t (TabClick t') c)) = quiz_view (tree c)
  /\ fresh (tree (handle t (TabClick t') c)) = fresh (tree c).
Proof. unfold handle, dispatch, launch. cbn. auto. Qed.

Lemma commit_quiz (e : env) (c : config) :
  fresh (tree c) <= fresh (tree (commit e c))
  /\ (tab_eqb (App.activeTab (app (tree c))) quiz = false ->
      quiz_view (tree (commit e c)) = None)
  /\ (tab_eqb (App.activeTab (app (tree c))) quiz = true ->
      quiz_view (tree c) = None ->
      exists j, fresh (tree c) <= j
                /\ quiz_view (tree (commit e c))
                   = Some {| id := j; local := Quiz.init |}).
Proof.
  unfold commit.
  destruct (tab_eqb (App.activeTab (app (tree c))) chat);
    destruct (tab_eqb (App.activeTab (app (tree c))) quiz);
    destruct (chat_view (tree c)); destruct (quiz_view (tree c));
    destruct (sidebar (tree c)); destruct (App.isSidebarOpen (app (tree c)));
    rewrite ?launch_tree; cbn;
    (split; [lia|]); (split; intros; try discriminate; try reflexivity);
    eexists; (split; [|reflexivity]); lia.
Qed.

(** X14: the quiz panel keeps its state only while its tab is shown:
    after a click on the Upload tab and a click back on the Quiz tab the
    quiz panel is a new instance, of an identity not in use before, with no
    chapter selected, the count 5 and no result, whatever the former one
    held or was waiting for. *)
Theorem tab_switch_resets (c : config) (t1 t2 : N) :
  let c' := steps [(t1, TabClick upload); (t2, TabClick quiz)] c in
  exists j,
    quiz_view (tree c') = Some {| id := j; local := Quiz.init |}
    /\ fresh (tree c) <= j.
Proof.
  cbn [steps]. unfold step.
  set (e1 := {| now := t1; confirm_answer := false |}).
  set (e2 := {| now := t2; confirm_answer := false |}).
  destruct (handle_tab c t1 upload) as [A1 [A2 A3]].
  set (h1 := handle t1 (TabClick upload) c) in *.
  destruct (commit_quiz e1 h1) as [B0 [B1 _]]. rewrite A1 in B1.
  specialize (B1 eq_refl).
  set (c1 := commit e1 h1) in *.
  destruct (handle_tab c1 t2 quiz) as [C1 [C2 C3]].
  set (h2 := handle t2 (TabClick quiz) c1) in *.
  destruct (commit_quiz e2 h2) as [_ [_ D1]]. rewrite C1, C2, B1 in D1.
  destruct (D1 eq_refl eq_refl) as [j [D2 D3]].
  exists j. split; [exact D3|]. lia.
Qed.

Lemma handle_menu (c : config) (t : N) :
  App.isSidebarOpen (app (tree (handle t MenuClick c)))
  = negb (App.isSidebarOpen (app (tree c)))
  /\ sidebar (tree (handle t MenuClick c)) = sidebar (tree c)
  /\ fresh (tree (handle t MenuClick c)) = fresh (tree c)
  /\ pending (handle t MenuClick c) = pending c.
Proof.
  unfold handle, dispatch, launch, App.toggleSidebar. cbn.
  now rewrite app_nil_r.
Qed.

Lemma handle_exited (c : config) (t : N) :
  App.isSidebarOpen (app (tree c)) = false ->
  sidebar (tree (handle t SidebarExited c)) = None
  /\ app (tree (handle t SidebarExited c)) = app (tree c)
  /\ fresh (tree (handle t SidebarExited c)) = fresh (tree c)
  /\ pending (handle t SidebarExited c) = pending c.
Proof. intros H. unfold handle. rewrite H. cbn. auto. Qed.

Lemma commit_sidebar (e : env) (c : config) :
  fresh (tree c) <= fresh (tree (commit e c))
  /\ match sidebar (tree c), App.isSidebarOpen (app (tree c)) with
     | None, true =>
         exists j, fresh (tree c) <= j
           /\ sidebar (tree (commit e c))
              = Some {| id := j; local := Sidebar.init |}
           /\ calls (commit e c) = calls c ++ [existT request _ GetModels]
     | sb, _ =>
         sidebar (tree (commit e c)) = sb /\ pending (commit e c) = pending c
     end.
Proof.
  unfold commit.
  destruct (tab_eqb (App.activeTab (app (tree c))) chat);
    destruct (tab_eqb (App.activeTab (app (tree c))) quiz);
    destruct (chat_view (tree c)); destruct (quiz_view (tree c));
    destruct (sidebar (tree c)); destruct (App.isSidebarOpen (app (tree c)));
    cbn; (split; [lia|]); auto;
    eexists; (split; [|split; [reflexivity|]]); try lia;
    unfold calls; cbn; now rewrite map_app.
Qed.

(** X15: closing an open sidebar, letting it disappear and opening it
    again mounts a fresh sidebar instance, with an empty model list and the
    loading flag down, and asks the backend for the models again: exactly
    one GET /models joins the calls in flight. *)
Theorem sidebar_reopen_reloads (c : config) (t1 t2 t3 : N)
    (i : inst Sidebar.state) :
  sidebar (tree c) = Some i ->
  App.isSidebarOpen (app (tree c)) = true ->
  let c' := steps [(t1, MenuClick); (t2, SidebarExited); (t3, MenuClick)] c in
  exists j,
    sidebar (tree c') = Some {| id := j; local := Sidebar.init |}
    /\ fresh (tree c) <= j
    /\ calls c' = calls c ++ [existT request _ GetModels].
Proof.
  intros Hs Ho. cbn [steps]. unfold step.
  set (e1 := {| now := t1; confirm_answer := false |}).
  set (e2 := {| now := t2; confirm_answer := false |}).
  set (e3 := {| now := t3; confirm_answer := false |}).
  (* the click that closes the sidebar *)
  destruct (handle_menu c t1) as [A1 [A2 [A3 A4]]].
  rewrite Ho in A1. rewrite Hs in A2. change (negb true) with false in A1.
  set (h1 := handle t1 MenuClick c) in *.
  destruct (commit_sidebar e1 h1) as [B0 B1]. rewrite A2 in B1.
  cbv beta iota in B1. destruct B1 as [B1 B2].
  pose proof (commit_app e1 h1) as B3.
  set (c1 := commit e1 h1) in *.
  (* the end of the exit animation *)
  assert (O1 : App.isSidebarOpen (app (tree c1)) = false) by now rewrite B3.
  destruct (handle_exited c1 t2 O1) as [C1 [C2 [C3 C4]]].
  set (h2 := handle t2 SidebarExited c1) in *.
  destruct (commit_sidebar e2 h2) as [D0 D1]. rewrite C1, C2, O1 in D1.
  cbv beta iota in D1. destruct D1 as [D1 D2].
  pose proof (commit_app e2 h2) as D3.
  set (c2 := commit e2 h2) in *.
  (* the click that opens it again *)
  destruct (handle_menu c2 t3) as [E1 [E2 [E3 E4]]].
  rewrite D3, C2, O1 in E1. rewrite D1 in E2.
  change (negb false) with true in E1.
  set (h3 := handle t3 MenuClick c2) in *.
  destruct (commit_sidebar e3 h3) as [F0 F1]. rewrite E2, E1 in F1.
  cbv beta iota in F1. destruct F1 as [j [F1 [F2 F3]]].
  exists j. split; [exact F2|]. split; [lia|].
  rewrite F3. unfold calls. now rewrite E4, D2, C4, B2, A4.
Qed.

(* ================================================================== *)
(** ** Handlers run alone: failures and guards *)

(** X4: when the upload call of a non-empty drop fails, the interceptor
    logs the body of the error response, or the message of the error when
    there is no response or its body is falsy; then the handler shows one
    error toast and logs the error itself; the document and chapter lists
    are untouched and the loading flag is lowered again. *)
Theorem upload_failure_keeps_lists
    (acceptedFiles : list File.t) (u : ui) (o : nat) (e1 e2 : env)
    (b : backend) (err : AxiosError.t) :
  acceptedFiles <> [] ->
  b _ (Api.uploadPDFs acceptedFiles) = Rejected err ->
  complete o e1 e2 b (Upload.onDrop acceptedFiles) u
  = (apply_action o (setIsLoading false) (apply_action o (setIsLoading true) u),
     [ setIsLoading true;
       toast loading (js "Uploading and processing PDFs...");
       console_error (js "API Error:")
         (the_value (if to_boolean (AxiosError.response_data err)
                     then AxiosError.response_data err
                     else JString (AxiosError.message err)));
       toast error (js "Failed to upload PDFs. Please try again.");
       console_error (js "Upload error:") (the_error err);
       setIsLoading false ],
     Finished)
  /\ App.documents
       (app (fst (fst (complete o e1 e2 b (Upload.onDrop acceptedFiles) u))))
     = App.documents (app u)
  /\ App.chapters
       (app (fst (fst (complete o e1 e2 b (Upload.onDrop acceptedFiles) u))))
     = App.chapters (app u)
  /\ App.isLoading
       (app (fst (fst (complete o e1 e2 b (Upload.onDrop acceptedFiles) u))))
     = false.
Proof.
  intros Hne Hb.
  assert (E : complete o e1 e2 b (Upload.onDrop acceptedFiles) u
              = (apply_action o (setIsLoading false)
                   (apply_action o (setIsLoading true) u),
                 [ setIsLoading true;
                   toast loading (js "Uploading and processing PDFs...");
                   console_error (js "API Error:")
                     (the_value (Api.error_detail err));
                   toast error (js "Failed to upload PDFs. Please try again.");
                   console_error (js "Upload error:") (the_error err);
                   setIsLoading false ],
                 Finished)).
  { unfold complete, Upload.onDrop.
    destruct acceptedFiles as [|f fs]; [congruence|].
    cbn -[js Api.error_detail]. rewrite Hb. reflexivity. }
  rewrite E. repeat split.
Qed.

(** X5: with a chapter selected, quiz generation posts the selected
    chapter and the current count; on success the held quiz is replaced by
    the response, on failure it is kept; the selection and the count are
    unchanged and the loading flag is lowered in both cases. *)
Theorem quiz_generation_outcome
    (s : Quiz.state) (u : ui) (o : nat) (e1 e2 : env) (b : backend) :
  quiz_view u = Some {| id := o; local := s |} ->
  Quiz.selectedChapter s <> [] ->
  let call := PostGenerateQuiz
                {| QuizBody.chapter := Quiz.selectedChapter s;
                   QuizBody.num_questions := Some (Quiz.numQuestions s) |} in
  let u' := fst (fst (complete o e1 e2 b (Quiz.handleGenerateQuiz s) u)) in
  issued (snd (run o e1 (Quiz.handleGenerateQuiz s) u))
  = Some (existT request _ call)
  /\ quiz_state u'
     = Some {| Quiz.selectedChapter := Quiz.selectedChapter s;
               Quiz.numQuestions := Quiz.numQuestions s;
               Quiz.quiz_ := match b _ call with
                             | Resolved response => Some response
                             | Rejected _ => Quiz.quiz_ s
                             end |}
  /\ App.isLoading (app u') = false.
Proof.
  intros Hu Hc. unfold complete, Quiz.handleGenerateQuiz, quiz_state.
  destruct (Quiz.selectedChapter s) as [|ch chs] eqn:Es; [congruence|].
  cbn -[js]. split; [reflexivity|].
  destruct (b QuizResult.t _) as [response|err]; cbn -[js];
    rewrite Hu; cbn; rewrite ?Nat.eqb_refl; cbn; rewrite ?Es;
    destruct s; cbn in *; subst; auto.
Qed.

(** X7: a click on Send does nothing while the button is disabled;
    while it is enabled it adds exactly one query call, whose text is the
    input as typed and whose model is the one selected in App, and raises
    the loading flag. *)
Theorem send_click (c : config) (t : N) (i : inst Chat.state) :
  chat_view (tree c) = Some i ->
  let p := App.chat_props (app (tree c)) in
  (Chat.send_disabled p (local i) = true -> handle t ChatSend c = c)
  /\ (Chat.send_disabled p (local i) = false ->
      exists body,
        calls (handle t ChatSend c)
        = calls c ++ [existT request _ (PostQuery body)]
        /\ QueryBody.query body = Chat.input (local i)
        /\ QueryBody.model_name body = Some (App.selectedModel (app (tree c)))
        /\ App.isLoading (app (tree (handle t ChatSend c))) = true).
Proof.
  intros Hi p. unfold handle, dispatch. rewrite Hi. fold p. split; intros Hd;
    rewrite Hd; [reflexivity|].
  unfold Chat.send_disabled in Hd. apply orb_false_iff in Hd.
  destruct Hd as [_ Hb]. rewrite not_trim_blank in Hb.
  destruct (handleSend_sync p (local i) (tree c) (id i)
              {| now := t; confirm_answer := false |} Hb) as [k [Hrun _]].
  unfold calls. rewrite launch_pending, launch_tree, Hrun. cbn [fst snd].
  eexists. split; [rewrite map_app; reflexivity|].
  repeat split.
Qed.

(** X8: a click on Generate Quiz does nothing while the button is
    disabled; while it is enabled it adds exactly one quiz call, for the
    selected chapter and the current count, and raises the loading flag. *)
Theorem generate_click (c : config) (t : N) (i : inst Quiz.state) :
  quiz_view (tree c) = Some i ->
  let p := App.quiz_props (app (tree c)) in
  (Quiz.generate_disabled p (local i) = true -> handle t QuizGenerate c = c)
  /\ (Quiz.generate_disabled p (local i) = false ->
      calls (handle t QuizGenerate c)
      = calls c
        ++ [existT request _
              (PostGenerateQuiz
                 {| QuizBody.chapter := Quiz.selectedChapter (local i);
                    QuizBody.num_questions :=
                      Some (Quiz.numQuestions (local i)) |})]
      /\ App.isLoading (app (tree (handle t QuizGenerate c))) = true).
Proof.
  intros Hi p. unfold handle, dispatch. rewrite Hi. fold p. split; intros Hd;
    rewrite Hd; [reflexivity|].
  unfold Quiz.generate_disabled in Hd. apply orb_false_iff in Hd.
  destruct Hd as [_ Hb].
  unfold calls. rewrite launch_pending, launch_tree.
  unfold Quiz.handleGenerateQuiz. rewrite Hb. cbn -[js].
  split; [rewrite map_app; reflexivity|reflexivity].
Qed.

(** X9: declining the confirmation dialog of Clear All Data does nothing
    at all; confirming it raises the sidebar's own loading flag before the
    clear call is awaited, and the flag is lowered again whether the call
    succeeds or fails, with the model list untouched. *)
Theorem clear_dialog_and_flag
    (u : ui) (o : nat) (s : Sidebar.state) (t : N) :
  sidebar u = Some {| id := o; local := s |} ->
  let u1 := apply_action o (Sidebar_setIsLoading true) u in
  run o {| now := t; confirm_answer := false |}
    (Sidebar.handleClearAll App.onClear) u = (u, [], Finished)
  /\ exists k,
       run o {| now := t; confirm_answer := true |}
         (Sidebar.handleClearAll App.onClear) u
       = (u1, [Sidebar_setIsLoading true], Awaiting DeleteClear k)
       /\ sidebar u1
          = Some {| id := o;
                    local := {| Sidebar.models := Sidebar.models s;
                                Sidebar.isLoading := true |} |}
       /\ forall x e2,
            sidebar (fst (fst (run o e2 (k x) u1)))
            = Some {| id := o;
                      local := {| Sidebar.models := Sidebar.models s;
                                  Sidebar.isLoading := false |} |}.
Proof.
  intros Hs u1. split; [reflexivity|].
  assert (H1 : sidebar u1
               = Some {| id := o;
                         local := {| Sidebar.models := Sidebar.models s;
                                     Sidebar.isLoading := true |} |}).
  { unfold u1. cbn. rewrite Hs. cbn. now rewrite Nat.eqb_refl. }
  unfold Sidebar.handleClearAll, Api.await, Api.clearAllData. cbn -[js].
  eexists. split; [reflexivity|]. split; [exact H1|].
  intros x e2.
  destruct x; cbn -[js]; rewrite Hs; cbn; rewrite Nat.eqb_refl; cbn;
    rewrite Nat.eqb_refl; reflexivity.
Qed.



(** X16: loading the models replaces the sidebar's model list on success;
    on failure the list is kept and the failure is only logged to the
    console, with no toast: by the interceptor, which logs the body of the
    error response or else the message of the error, and by the handler,
    which logs the error itself. *)
Theorem models_load_outcome
    (u : ui) (o : nat) (s : Sidebar.state) (e1 e2 : env) (b : backend) :
  sidebar u = Some {| id := o; local := s |} ->
  complete o e1 e2 b Sidebar.loadModels u
  = match b _ Api.getModels with
    | Resolved data =>
        (apply_action o (setModels data) u, [setModels data], Finished)
    | Rejected err =>
        (u, [ console_error (js "API Error:")
                (the_value (if to_boolean (AxiosError.response_data err)
                            then AxiosError.response_data err
                            else JString (AxiosError.message err)));
              console_error (js "Failed to load models:") (the_error err) ],
         Finished)
    end
  /\ sidebar (fst (fst (complete o e1 e2 b Sidebar.loadModels u)))
     = Some {| id := o;
               local := {| Sidebar.models :=
                             match b _ Api.getModels with
                             | Resolved data => data
                             | Rejected _ => Sidebar.models s
                             end;
                           Sidebar.isLoading := Sidebar.isLoading s |} |}.
Proof.
  intros Hs. unfold complete, Sidebar.loadModels, Api.await, Api.getModels.
  cbn -[js]. destruct (b _ GetModels) as [data|err]; cbn -[js].
  - split; [reflexivity|]. rewrite Hs. cbn. now rewrite Nat.eqb_refl.
  - split; [reflexivity|]. rewrite Hs. now destruct s.
Qed.

Lemma formatFileSize_small_witness :
  formatFileSize 512 = dec 512 ++ js " Bytes".
Proof. apply (formatFileSize_small 512). lia. Defined.

Lemma formatFileSize_accepted_witness :
  exists h unit,
    formatFileSize 1048576 = print_hundredths h ++ js " " ++ unit
    /\ (100 <= h <= 102400)%N
    /\ In unit [js "Bytes"; js "KB"; js "MB"].
Proof.
  apply (formatFileSize_accepted 1048576). unfold Upload.maxSize. lia.
Defined.

Lemma upload_failure_keeps_lists_witness :
  snd (fst (complete 0 (at_time 1) (at_time 2) backend_refusing
              (Upload.onDrop [notes_pdf]) (tree start)))
  = [ setIsLoading true;
      toast loading (js "Uploading and processing PDFs...");
      console_error (js "API Error:")
        (the_value (JObject (js "{detail: 'No files uploaded'}")));
      toast error (js "Failed to upload PDFs. Please try again.");
      console_error (js "Upload error:") (the_error bad_request);
      setIsLoading false ]
  /\ snd (fst (complete 0 (at_time 1) (at_time 2) backend_down
                 (Upload.onDrop [notes_pdf]) (tree start)))
     = [ setIsLoading true;
         toast loading (js "Uploading and processing PDFs...");
         console_error (js "API Error:")
           (the_value (JString (js "Network Error")));
         toast error (js "Failed to upload PDFs. Please try again.");
         console_error (js "Upload error:") (the_error network_error);
         setIsLoading false ].
Proof.
  split.
  - rewrite (proj1 (upload_failure_keeps_lists [notes_pdf] (tree start) 0
                      (at_time 1) (at_time 2) backend_refusing bad_request
                      ltac:(discriminate) eq_refl)).
    reflexivity.
  - rewrite (proj1 (upload_failure_keeps_lists [notes_pdf] (tree start) 0
                      (at_time 1) (at_time 2) backend_down network_error
                      ltac:(discriminate) eq_refl)).
    reflexivity.
Defined.

Lemma quiz_generation_outcome_witness :
  App.isLoading
    (app (fst (fst (complete 2 (at_time 1) (at_time 2) backend_up
                      (Quiz.handleGenerateQuiz
                         {| Quiz.selectedChapter := js "Chapter 1";
                            Quiz.numQuestions := Num 5;
                            Quiz.quiz_ := None |}) quiz_chosen))))
  = false.
Proof.
  apply (quiz_generation_outcome
           {| Quiz.selectedChapter := js "Chapter 1";
              Quiz.numQuestions := Num 5; Quiz.quiz_ := None |}
           quiz_chosen 2 (at_time 1) (at_time 2) backend_up).
  - reflexivity.
  - discriminate.
Defined.


Lemma send_click_witness :
  exists body,
    calls (handle 3 ChatSend chat_open)
    = calls chat_open ++ [existT request _ (PostQuery body)]
    /\ QueryBody.query body = js "Why?"
    /\ QueryBody.model_name body = Some (js "gemini-1.5-flash")
    /\ App.isLoading (app (tree (handle 3 ChatSend chat_open))) = true.
Proof.
  apply (proj2 (send_click chat_open 3
                  {| id := 2;
                     local := {| Chat.messages := []; Chat.input := js "Why?";
                                 Chat.selectedChapter := js "All Chapters" |} |}
                  eq_refl)).
  reflexivity.
Defined.

Lemma generate_click_witness :
  calls (handle 5 QuizGenerate quiz_open)
  = calls quiz_open
    ++ [existT request _
          (PostGenerateQuiz
             {| QuizBody.chapter := js "Chapter 1";
                QuizBody.num_questions := Some (Num 5) |})]
  /\ App.isLoading (app (tree (handle 5 QuizGenerate quiz_open))) = true.
Proof.
  apply (proj2 (generate_click quiz_open 5
                  {| id := 2;
                     local := {| Quiz.selectedChapter := js "Chapter 1";
                                 Quiz.numQuestions := Num 5;
                                 Quiz.quiz_ := None |} |}
                  eq_refl)).
  reflexivity.
Defined.

Lemma clear_dialog_and_flag_witness :
  run 1 {| now := 5; confirm_answer := false |}
    (Sidebar.handleClearAll App.onClear) (tree start)
  = (tree start, [], Finished).
Proof.
  apply (proj1 (clear_dialog_and_flag (tree start) 1 Sidebar.init 5 eq_refl)).
Defined.

Lemma models_load_outcome_witness :
  complete 1 (at_time 1) (at_time 2) backend_down Sidebar.loadModels
    (tree start)
  = (tree start,
     [ console_error (js "API Error:")
         (the_value (JString (js "Network Error")));
       console_error (js "Failed to load models:") (the_error network_error) ],
     Finished).
Proof.
  apply (proj1 (models_load_outcome (tree start) 1 Sidebar.init (at_time 1)
                  (at_time 2) backend_down eq_refl)).
Defined.

Lemma calls_in_flight_wellformed_witness :
  Forall (fun p => wf_call (req p))
    (pending (steps (quiz_typed (js "7")) start)).
Proof.
  apply (calls_in_flight_wellformed (steps (quiz_typed (js "7")) start)).
  apply reachable_steps, reach_start.
Defined.

Lemma lists_grow_or_reset_witness :
  lists_change (app (tree start)) (app (tree (step 1 (Drop [notes_pdf]) start)))
  /\ ((forall i b, Drop [notes_pdf] <> Settle i b) ->
      lists_same (app (tree start))
        (app (tree (step 1 (Drop [notes_pdf]) start)))).
Proof.
  apply (lists_grow_or_reset start 1 (Drop [notes_pdf])). apply reach_start.
Defined.

Lemma messages_append_only_witness :
  chat_view (tree (step 3 ChatSend chat_open)) = None
  \/ exists i' more,
       chat_view (tree (step 3 ChatSend chat_open)) = Some i' /\ id i' = 2
       /\ List.length more <= 1
       /\ Chat.messages (local i') = [] ++ more.
Proof.
  apply (messages_append_only chat_open 3 ChatSend
           {| id := 2;
              local := {| Chat.messages := []; Chat.input := js "Why?";
                          Chat.selectedChapter := js "All Chapters" |} |}).
  - apply reachable_steps, reach_start.
  - reflexivity.
Defined.

Lemma sidebar_reopen_reloads_witness :
  exists j,
    sidebar (tree (steps [(1, MenuClick); (2, SidebarExited); (3, MenuClick)]%N
                     start))
    = Some {| id := j; local := Sidebar.init |}
    /\ fresh (tree start) <= j
    /\ calls (steps [(1, MenuClick); (2, SidebarExited); (3, MenuClick)]%N
                start)
       = calls start ++ [existT request _ GetModels].
Proof.
  apply (sidebar_reopen_reloads start 1 2 3
           {| id := 1; local := Sidebar.init |}); reflexivity.
Defined.

Lemma loading_means_call_in_flight_witness :
  exists p, In p (pending (step 1 (Drop [notes_pdf]) start))
            /\ busy (req p) = true.
Proof.
  apply (proj1 loading_means_call_in_flight (step 1 (Drop [notes_pdf]) start)).
  - apply reach_step, reach_start.
  - vm_compute. reflexivity.
Defined.
